(** * Plug-and-play diffusion script [pnp.py]: a shallow embedding

  The script is glue code around a pretrained diffusion pipeline.  The
  embedding keeps the script's own control flow, path computations,
  configuration look-ups and exceptions concrete, and takes the model
  library (diffusers, torch, PIL, PyYAML) as an interface whose
  operations are parameters. *)

From Stdlib Require Import ZArith String Ascii List Lia Bool SpecFloat.
From stdpp Require Import base option list gmap strings pretty.

Local Open Scope string_scope.
Local Open Scope Z_scope.

(** ** Python values, exceptions and builtins *)

Module Py.

(** Python's [float] is IEEE-754 binary64. *)
Definition float64 := spec_float.
Definition f64_prec : Z := 53.
Definition f64_emax : Z := 1024.

Definition f64_mul : float64 -> float64 -> float64 := SFmul f64_prec f64_emax.
Definition f64_div : float64 -> float64 -> float64 := SFdiv f64_prec f64_emax.

(** Correctly rounded conversion of an integer (round half to even). *)
Definition f64_of_Z (z : Z) : float64 := binary_normalize f64_prec f64_emax z 0 false.

(** Scalars that [yaml.safe_load] produces and the script handles. *)
Inductive pyval :=
| PyNone
| PyBool (b : bool)
| PyInt (z : Z)
| PyFloat (f : float64)
| PyStr (s : string).

(** Exceptions.  [LibraryError] stands for whatever an operation of the
    model library raises; [NotModelled] marks a Python behaviour the
    embedding leaves out (sequence repetition by [*]). *)
Inductive exn :=
| ValueError (msg : string)
| KeyError (k : string)
| IndexError
| TypeError
| OverflowError
| ZeroDivisionError
| FileNotFoundError (p : string)
| FileExistsError (p : string)
| LibraryError (what : string)
| NotModelled.

Inductive result (A : Type) :=
| Ok (a : A)
| Raise (e : exn).
Arguments Ok {A} a.
Arguments Raise {A} e.

Definition is_ok {A} (r : result A) : bool :=
  match r with Ok _ => true | Raise _ => false end.

Definition rbind {A B} (r : result A) (k : A -> result B) : result B :=
  match r with Ok a => k a | Raise e => Raise e end.

(** [v == s] for a string literal [s]: values of another type are
    never equal to a string. *)
Definition eq_str (v : pyval) (s : string) : bool :=
  match v with
  | PyStr s' => String.eqb s' s
  | _ => false
  end.

(** [float(z)] as Python converts an int operand: OverflowError when
    the rounded value is out of range. *)
Definition float_of_int (z : Z) : result float64 :=
  match f64_of_Z z with
  | S754_infinity _ => Raise OverflowError
  | f => Ok f
  end.

(** The numeric reading of a value ([bool] is a subclass of [int]). *)
Definition as_num (v : pyval) : option (Z + float64) :=
  match v with
  | PyBool b => Some (inl (Z.b2z b))
  | PyInt z => Some (inl z)
  | PyFloat f => Some (inr f)
  | PyNone | PyStr _ => None
  end.

(** [a * b].  An int operand meeting a float is converted first.  A
    string times an int is sequence repetition, which is left out. *)
Definition mul (a b : pyval) : result pyval :=
  match as_num a, as_num b with
  | Some (inl x), Some (inl y) => Ok (PyInt (x * y))
  | Some (inl x), Some (inr g) =>
      rbind (float_of_int x) (fun f => Ok (PyFloat (f64_mul f g)))
  | Some (inr f), Some (inl y) =>
      rbind (float_of_int y) (fun g => Ok (PyFloat (f64_mul f g)))
  | Some (inr f), Some (inr g) => Ok (PyFloat (f64_mul f g))
  | Some (inl _), None =>
      match b with PyStr _ => Raise NotModelled | _ => Raise TypeError end
  | None, Some (inl _) =>
      match a with PyStr _ => Raise NotModelled | _ => Raise TypeError end
  | _, _ => Raise TypeError
  end.

(** [a / b] on numbers (true division).  An int operand is converted
    first, which is what Python computes while the int is exactly
    representable; larger ints are left out. *)
Definition truediv (a b : pyval) : result pyval :=
  let to_float v :=
    match v with
    | PyBool b => float_of_int (Z.b2z b)
    | PyInt z => if Z.abs z <=? 2 ^ 53 then float_of_int z else Raise NotModelled
    | PyFloat f => Ok f
    | _ => Raise TypeError
    end in
  rbind (to_float a) (fun x =>
  rbind (to_float b) (fun y =>
    match y with
    | S754_zero _ => Raise ZeroDivisionError
    | _ => Ok (PyFloat (f64_div x y))
    end)).

(** Truncation of a finite float toward zero. *)
Definition f64_trunc (f : float64) : result Z :=
  match f with
  | S754_zero _ => Ok 0
  | S754_infinity _ => Raise OverflowError
  | S754_nan => Raise (ValueError "cannot convert float NaN to integer")
  | S754_finite s m e =>
      let mag := if 0 <=? e then Z.shiftl (Zpos m) e
                 else Z.shiftr (Zpos m) (- e) in
      Ok (if s then - mag else mag)
  end.

(** [int(v)] on numbers. *)
Definition int (v : pyval) : result Z :=
  match v with
  | PyBool b => Ok (Z.b2z b)
  | PyInt z => Ok z
  | PyFloat f => f64_trunc f
  | PyNone => Raise TypeError
  | PyStr _ => Raise NotModelled
  end.

(** [xs[:k]] for a sequence [xs] and an int [k]: a negative bound
    counts from the end. *)
Definition slice_to {A} (xs : list A) (k : Z) : list A :=
  if 0 <=? k then take (Z.to_nat k) xs
  else take (Z.to_nat (Z.of_nat (length xs) + k)) xs.

(** [xs[i]] for a non-negative literal index. *)
Definition index {A} (xs : list A) (i : nat) : result A :=
  match xs !! i with
  | Some x => Ok x
  | None => Raise IndexError
  end.

(** A path argument: the [os.path] functions reject non-strings. *)
Definition as_path (v : pyval) : result string :=
  match v with
  | PyStr s => Ok s
  | _ => Raise TypeError
  end.

End Py.
Export Py.

(** ** [os.path] on POSIX *)

Module OsPath.

Definition sep : ascii := "/"%char.
Definition extsep : ascii := "."%char.

(** [s.rfind(c)]: the highest index of [c] in [s], or -1. *)
Fixpoint rfind_from (c : ascii) (s : string) (i : Z) (found : Z) : Z :=
  match s with
  | EmptyString => found
  | String a r => rfind_from c r (i + 1) (if Ascii.eqb a c then i else found)
  end.
Definition rfind (c : ascii) (s : string) : Z := rfind_from c s 0 (-1).

(** [s[i:]] and [s[:i]] for [0 <= i]. *)
Definition from (i : Z) (s : string) : string :=
  let n := Z.to_nat i in String.substring n (String.length s - n) s.
Definition upto (i : Z) (s : string) : string :=
  String.substring 0 (Z.to_nat i) s.

Definition startswith_sep (s : string) : bool :=
  match s with
  | String a _ => Ascii.eqb a sep
  | EmptyString => false
  end.

Fixpoint endswith_sep (s : string) : bool :=
  match s with
  | EmptyString => false
  | String a EmptyString => Ascii.eqb a sep
  | String _ r => endswith_sep r
  end.

(** One round of the loop of [posixpath.join]. *)
Definition join2 (path b : string) : string :=
  if startswith_sep b then b
  else if (String.eqb path EmptyString || endswith_sep path)%bool then path +:+ b
  else path +:+ "/" +:+ b.

(** [os.path.join(a, *p)] *)
Definition join (a : string) (p : list string) : string :=
  fold_left join2 p a.

(** [os.path.basename(p)] *)
Definition basename (p : string) : string :=
  from (rfind sep p + 1) p.

(** The [while] loop of [genericpath._splitext]: is there a character
    other than the dot among the [n] characters from [i] on? *)
Fixpoint has_non_dot (p : string) (i : nat) (n : nat) : bool :=
  match n with
  | O => false
  | S n' =>
      match String.get i p with
      | Some a => if Ascii.eqb a extsep then has_non_dot p (S i) n' else true
      | None => true
      end
  end.

(** [os.path.splitext(p)] *)
Definition splitext (p : string) : string * string :=
  let sepIndex := rfind sep p in
  let dotIndex := rfind extsep p in
  if (sepIndex <? dotIndex)
     && has_non_dot p (Z.to_nat (sepIndex + 1)) (Z.to_nat (dotIndex - (sepIndex + 1)))
  then (upto dotIndex p, from dotIndex p)
  else (p, EmptyString).

End OsPath.


(** ** The model library

  Operations of torch, diffusers, PIL and PyYAML that the script calls.
  An operation that can fail returns an [outcome]; one that may draw
  random numbers threads the generator state. *)

Inductive outcome (A : Type) :=
| Done (a : A)
| Failed (what : string).
Arguments Done {A} a.
Arguments Failed {A} what.

Definition stoch (G A : Type) : Type := G -> outcome A * G.

(** [PIL.Image.Resampling] *)
Inductive resampling := NEAREST | LANCZOS | BILINEAR | BICUBIC | BOX | HAMMING.

(** What the injection hooks keep inside the UNet modules: the time step
  registered last and the two injection schedules. *)
Record hooks := {
  hook_t : option Z;
  hook_attn : option (list Z);
  hook_conv : option (list Z)
}.

Class Library := {
  tensor : Type;
  pixels : Type;
  store : Type;          (* the checkpoints [from_pretrained] can reach *)
  generator : Type;      (* state of the random number generators *)
  pipe_t : Type;
  unet_t : Type;
  vae_t : Type;
  sched_t : Type;

  (* PyYAML *)
  yaml_safe_load : string -> outcome (gmap string pyval);
  yaml_dump : gmap string pyval -> string;
  (* python *)
  float_repr : float64 -> string;
  (* torch *)
  manual_seed : pyval -> outcome generator;
  torch_cat : list tensor -> tensor;
  torch_chunk : tensor -> nat -> list tensor;
  tensor_add : tensor -> tensor -> tensor;
  tensor_sub : tensor -> tensor -> tensor;
  tensor_rmul : pyval -> tensor -> outcome tensor;
  tensor_div : tensor -> pyval -> tensor;
  tensor_adds : tensor -> pyval -> tensor;
  tensor_clamp : tensor -> pyval -> pyval -> tensor;
  tensor_to : tensor -> pyval -> outcome tensor;
  tensor_get : tensor -> nat -> outcome tensor;
  (* PIL and torchvision *)
  convert_pixels : string -> string -> pixels -> outcome pixels;
  resize_pixels : Z * Z -> Z * Z -> resampling -> pixels -> pixels;
  ToTensor : string -> Z * Z -> pixels -> tensor;
  ToPILImage : tensor -> outcome (string * (Z * Z) * pixels);
  (* diffusers *)
  unet_from_pretrained : store -> string -> stoch generator unet_t;
  unet_to : unet_t -> pyval -> outcome unet_t;
  sd_from_pretrained : store -> string -> stoch generator pipe_t;
  sdxl_from_pretrained : store -> string -> unet_t -> stoch generator pipe_t;
  pipe_to : pipe_t -> string -> outcome pipe_t;
  enable_xformers_memory_efficient_attention : pipe_t -> outcome pipe_t;
  pipe_vae : pipe_t -> vae_t;
  pipe_unet : pipe_t -> unet_t;
  ddim_from_pretrained : store -> string -> stoch generator sched_t;
  set_timesteps : sched_t -> pyval -> pyval -> outcome sched_t;
  timesteps : sched_t -> list Z;
  scheduler_step : sched_t -> tensor -> Z -> tensor -> stoch generator tensor;
  encode_prompt :
    pipe_t -> pyval -> pyval -> nat -> stoch generator (tensor * tensor * tensor * tensor);
  unet_forward : unet_t -> hooks -> tensor -> Z -> tensor -> stoch generator tensor;
  vae_scaling_factor : vae_t -> pyval;
  vae_decode : vae_t -> tensor -> stoch generator tensor;
  (* [load_source_latents_t] of pnp_utils, which is not among the
     sources: given the time step and the directory it returns the
     cached source latents; it can look at the tensors on disk. *)
  load_source_latents_t : Z -> string -> (string -> option tensor) -> outcome tensor
}.

(** ** State and exception monad

  A computation takes the state and returns a value or an exception,
  with the state it leaves behind: what was done before an exception
  stays done. *)

Definition M (S A : Type) : Type := S -> result A * S.

Definition ret {S A} (a : A) : M S A := fun w => (Ok a, w).
Definition raise {S A} (e : exn) : M S A := fun w => (Raise e, w).
Definition bind {S A B} (m : M S A) (k : A -> M S B) : M S B :=
fun w =>
  match m w with
  | (Ok a, w') => k a w'
  | (Raise e, w') => (Raise e, w')
  end.

Notation "'let*' x ':=' m 'in' k" := (bind m (fun x => k))
(at level 10, x pattern, m at level 100, k at level 200).
Notation "m ';;' k" := (bind m (fun _ => k))
(at level 100, k at level 200, right associativity).

(** ** The world the script runs in *)

Section Script.
Context `{L : Library}.

(** PIL images: mode, (width, height) and pixel data. *)
Record pil_image := {
    im_mode : string;
    im_size : Z * Z;
    im_data : pixels
}.

Inductive fcontent :=
| FText (s : string)
| FPickle (t : tensor)
| FImage (i : pil_image).

Inductive printed :=
| PStr (s : string)
| PConfig (c : gmap string pyval).

(** Observable actions, recorded in the order the script performs them. *)
Inductive event :=
| EvRead (p : string)
| EvMakedirs (p : string)
| EvWrite (p : string)
| EvPrint (x : printed)
| EvSeed (v : pyval)
| EvFromPretrained (cls key : string)
| EvUnet (t : Z) (h : hooks)
| EvDecode (latent : tensor).

Record world := {
    files : gmap string fcontent;
    dirs : gset string;
    checkpoints : store;
    gen : generator;
    trace : list event
}.

Definition set_files (f : gmap string fcontent) (w : world) : world :=
  {| files := f; dirs := dirs w; checkpoints := checkpoints w;
     gen := gen w; trace := trace w |}.
Definition set_dirs (d : gset string) (w : world) : world :=
  {| files := files w; dirs := d; checkpoints := checkpoints w;
     gen := gen w; trace := trace w |}.
Definition set_gen (g : generator) (w : world) : world :=
  {| files := files w; dirs := dirs w; checkpoints := checkpoints w;
     gen := g; trace := trace w |}.
Definition set_trace (t : list event) (w : world) : world :=
  {| files := files w; dirs := dirs w; checkpoints := checkpoints w;
     gen := gen w; trace := t |}.

Local Abbreviation Mw := (M world).

Definition lift_result {A} (r : result A) : Mw A :=
  fun w => (r, w).

Definition lift_outcome {A} (o : outcome A) : Mw A :=
  fun w =>
    match o with
    | Done a => (Ok a, w)
    | Failed what => (Raise (LibraryError what), w)
    end.

Definition lift_stoch {A} (f : stoch generator A) : Mw A :=
  fun w =>
    match f (gen w) with
    | (Done a, g) => (Ok a, set_gen g w)
    | (Failed what, g) => (Raise (LibraryError what), set_gen g w)
    end.

Definition emit (e : event) : Mw unit :=
  fun w => (Ok tt, set_trace (trace w ++ [e]) w).

(** [cfg[k]] *)
Definition getitem (cfg : gmap string pyval) (k : string) : Mw pyval :=
  match cfg !! k with
  | Some v => ret v
  | None => raise (KeyError k)
  end.

Definition print (x : printed) : Mw unit := emit (EvPrint x).

(** *** Files *)

Definition read_file (p : string) : Mw fcontent :=
  emit (EvRead p) ;;
  fun w =>
    match files w !! p with
    | Some c => (Ok c, w)
    | None => (Raise (FileNotFoundError p), w)
    end.

(** [open(p, "r")] followed by reading the text. *)
Definition read_text (p : string) : Mw string :=
  let* c := read_file p in
  match c with
  | FText s => ret s
  | _ => raise (LibraryError "not a text file")
  end.

(** [Image.open(p)] *)
Definition Image_open (p : string) : Mw pil_image :=
  let* c := read_file p in
  match c with
  | FImage i => ret i
  | _ => raise (LibraryError "cannot identify image file")
  end.

(** [torch.load(p)] *)
Definition torch_load (p : string) : Mw tensor :=
  let* c := read_file p in
  match c with
  | FPickle t => ret t
  | _ => raise (LibraryError "invalid pickle")
  end.

Definition write_file (p : string) (c : fcontent) : Mw unit :=
  emit (EvWrite p) ;;
  fun w => (Ok tt, set_files (<[p := c]> (files w)) w).

(** [os.makedirs(p, exist_ok=True)]: an existing directory is accepted,
    an existing file is not.  Paths are kept as written; the ancestors
    that [makedirs] creates on the way are not tracked. *)
Definition makedirs (p : string) : Mw unit :=
  emit (EvMakedirs p) ;;
  fun w =>
    match files w !! p with
    | Some _ => (Raise (FileExistsError p), w)
    | None => (Ok tt, set_dirs ({[p]} ∪ dirs w) w)
    end.

(** The tensors on disk, as the latent loader of [pnp_utils] sees them. *)
Definition pickles (w : world) (p : string) : option tensor :=
  match files w !! p with
  | Some (FPickle t) => Some t
  | _ => None
  end.

(** *** Formatting *)

(** [f'{v}'] *)
Definition format (v : pyval) : string :=
  match v with
  | PyNone => "None"
  | PyBool true => "True"
  | PyBool false => "False"
  | PyInt z => pretty z
  | PyFloat f => float_repr f
  | PyStr s => s
  end.

(** *** PIL *)

(** [image.convert(mode)] *)
Definition convert (mode : string) (i : pil_image) : Mw pil_image :=
  let* d := lift_outcome (convert_pixels (im_mode i) mode (im_data i)) in
  ret {| im_mode := mode; im_size := im_size i; im_data := d |}.

(** [image.resize(size, resample=r)] *)
Definition resize (size : Z * Z) (r : resampling) (i : pil_image) : pil_image :=
  {| im_mode := im_mode i; im_size := size;
     im_data := resize_pixels (im_size i) size r (im_data i) |}.

(** [image.save(p)] *)
Definition save (i : pil_image) (p : string) : Mw unit :=
  write_file p (FImage i).

(** ** The class [PNP] *)

Record PNP := {
  config : gmap string pyval;
  device : pyval;
  pipe : pipe_t;
  vae : vae_t;
  unet : unet_t;
  scheduler : sched_t;
  image : tensor;
  eps : tensor;
  text_embeds : tensor;
  pnp_guidance_embeds : tensor;
  qk_injection_timesteps : option (list Z);
  conv_injection_timesteps : option (list Z);
  unet_hooks : hooks
}.

Definition set_hooks (h : hooks) (self : PNP) : PNP :=
  {| config := config self; device := device self; pipe := pipe self;
     vae := vae self; unet := unet self; scheduler := scheduler self;
     image := image self; eps := eps self; text_embeds := text_embeds self;
     pnp_guidance_embeds := pnp_guidance_embeds self;
     qk_injection_timesteps := qk_injection_timesteps self;
     conv_injection_timesteps := conv_injection_timesteps self;
     unet_hooks := h |}.

Definition set_injection_timesteps (qk conv : list Z) (self : PNP) : PNP :=
  {| config := config self; device := device self; pipe := pipe self;
     vae := vae self; unet := unet self; scheduler := scheduler self;
     image := image self; eps := eps self; text_embeds := text_embeds self;
     pnp_guidance_embeds := pnp_guidance_embeds self;
     qk_injection_timesteps := Some qk;
     conv_injection_timesteps := Some conv;
     unet_hooks := unet_hooks self |}.

(** Modelled from the spec: [register_time], [register_attention_control_efficient]
    and [register_conv_control_efficient] of [pnp_utils], which is not
    among the sources.  They are the hooks "patched into existing model
    modules"; each records its argument where the UNet reads it. *)
Definition register_time (self : PNP) (t : Z) : PNP :=
  let h := unet_hooks self in
  set_hooks {| hook_t := Some t; hook_attn := hook_attn h; hook_conv := hook_conv h |} self.

Definition register_attention_control_efficient (self : PNP) (ts : list Z) : PNP :=
  let h := unet_hooks self in
  set_hooks {| hook_t := hook_t h; hook_attn := Some ts; hook_conv := hook_conv h |} self.

Definition register_conv_control_efficient (self : PNP) (ts : list Z) : PNP :=
  let h := unet_hooks self in
  set_hooks {| hook_t := hook_t h; hook_attn := hook_attn h; hook_conv := Some ts |} self.

(** Modelled from the spec: [seed_everything] of [pnp_utils], which is
    not among the sources: it fixes the state of the random number
    generators from the seed. *)
Definition seed_everything (seed : pyval) : Mw unit :=
  emit (EvSeed seed) ;;
  let* g := lift_outcome (manual_seed seed) in
  fun w => (Ok tt, set_gen g w).

Definition get_checkpoints : Mw store :=
  fun w => (Ok (checkpoints w), w).

(** The directory of the cached latents:
    [os.path.join(config["latents_path"],
                  os.path.splitext(os.path.basename(config["image_path"]))[0])] *)
Definition image_stem (cfg : gmap string pyval) : Mw string :=
  let* image_path := getitem cfg "image_path" in
  let* image_path := lift_result (as_path image_path) in
  ret (fst (OsPath.splitext (OsPath.basename image_path))).

(** [PNP.get_data]; it runs inside [__init__] and reads the attributes
    [config], [device] and [scheduler] set so far.  The [autocast]
    decorators only select the arithmetic precision of the library. *)
Definition get_data (cfg : gmap string pyval) (dev : pyval) (sch : sched_t)
  : Mw (tensor * tensor) :=
  (* load image *)
  let* image_path := getitem cfg "image_path" in
  let* image_path := lift_result (as_path image_path) in
  let* image := Image_open image_path in
  let* image := convert "RGB" image in
  let image := resize (512, 512) LANCZOS image in
  let* image :=
    lift_outcome (tensor_to (ToTensor (im_mode image) (im_size image) (im_data image)) dev) in
  (* get noise *)
  let* latents_dir := getitem cfg "latents_path" in
  let* stem := image_stem cfg in
  let* t0 := lift_result (index (timesteps sch) 0) in
  let* latents_dir := lift_result (as_path latents_dir) in
  let latents_path :=
    OsPath.join latents_dir [stem; "noisy_latents_" +:+ pretty t0 +:+ ".pt"] in
  let* noisy_latent := torch_load latents_path in
  let* noisy_latent := lift_outcome (tensor_to noisy_latent dev) in
  ret (image, noisy_latent).

(** [PNP.get_text_embeds_xl] *)
Definition get_text_embeds_xl (p : pipe_t) (prompt negative_prompt : pyval)
    (batch_size : nat) : Mw tensor :=
  let* r := lift_stoch (encode_prompt p prompt negative_prompt batch_size) in
  let '(prompt_embeds, negative_prompt_embeds, _, _) := r in
  ret (torch_cat [negative_prompt_embeds; prompt_embeds]).

(** [PNP.__init__].  The attributes [tokenizer] and [text_encoder] are
    read by [get_text_embeds] only, which nothing calls; both are left
    out. *)
Definition PNP_init (cfg : gmap string pyval) : Mw PNP :=
  let* dev := getitem cfg "device" in
  let* sd_version := getitem cfg "sd_version" in
  let* model_key :=
    if eq_str sd_version "2.1" then ret "stabilityai/stable-diffusion-2-1-base"
    else if eq_str sd_version "2.0" then ret "stabilityai/stable-diffusion-2-base"
    else if eq_str sd_version "1.5" then ret "/home/heyi/llm/stable-diffusion-v1-5"
    else if eq_str sd_version "xl-base" then ret "/home/heyi/llm/stable-diffusion-xl-base-1.0/"
    else raise (ValueError ("Stable-diffusion version " +:+ format sd_version
                            +:+ " not supported.")) in
  (* Create SD models *)
  print (PStr "Loading SD model") ;;
  let* st := get_checkpoints in
  let* p :=
    if eq_str sd_version "xl-base" then
      emit (EvFromPretrained "UNet2DConditionModel" model_key) ;;
      let* u := lift_stoch (unet_from_pretrained st model_key) in
      let* u := lift_outcome (unet_to u dev) in
      emit (EvFromPretrained "StableDiffusionXLPipeline" model_key) ;;
      let* p := lift_stoch (sdxl_from_pretrained st model_key u) in
      lift_outcome (pipe_to p "cuda")
    else
      emit (EvFromPretrained "StableDiffusionPipeline" model_key) ;;
      let* p := lift_stoch (sd_from_pretrained st model_key) in
      lift_outcome (pipe_to p "cuda") in
  let* p := lift_outcome (enable_xformers_memory_efficient_attention p) in
  emit (EvFromPretrained "DDIMScheduler" model_key) ;;
  let* sch := lift_stoch (ddim_from_pretrained st model_key) in
  let* n_timesteps := getitem cfg "n_timesteps" in
  let* sch := lift_outcome (set_timesteps sch n_timesteps dev) in
  print (PStr "SD model loaded") ;;
  (* load image *)
  let* data := get_data cfg dev sch in
  let* prompt := getitem cfg "prompt" in
  let* negative_prompt := getitem cfg "negative_prompt" in
  let* embeds := get_text_embeds_xl p prompt negative_prompt 1 in
  let* empty := get_text_embeds_xl p (PyStr EmptyString) (PyStr EmptyString) 1 in
  let* guidance := lift_result (index (torch_chunk empty 2) 0) in
  ret {| config := cfg; device := dev; pipe := p;
         vae := pipe_vae p; unet := pipe_unet p; scheduler := sch;
         image := fst data; eps := snd data;
         text_embeds := embeds; pnp_guidance_embeds := guidance;
         qk_injection_timesteps := None; conv_injection_timesteps := None;
         unet_hooks := {| hook_t := None; hook_attn := None; hook_conv := None |} |}.

(** The literal [0.5]. *)
Definition f64_half : float64 := S754_finite false 4503599627370496 (-53).

(** [PNP.decode_latent] *)
Definition decode_latent (self : PNP) (latent : tensor) : Mw tensor :=
  emit (EvDecode latent) ;;
  let* k := lift_result (truediv (PyInt 1) (vae_scaling_factor (vae self))) in
  let* latent := lift_outcome (tensor_rmul k latent) in
  let* img := lift_stoch (vae_decode (vae self) latent) in
  ret (tensor_clamp (tensor_adds (tensor_div img (PyInt 2)) (PyFloat f64_half))
                    (PyInt 0) (PyInt 1)).

(** [PNP.denoise_step].  [register_time] updates the object, which is
    returned with the denoised latent. *)
Definition denoise_step (self : PNP) (x : tensor) (t : Z) : Mw (PNP * tensor) :=
  (* register the time step and features in pnp injection modules *)
  let* latents_dir := getitem (config self) "latents_path" in
  let* stem := image_stem (config self) in
  let* latents_dir := lift_result (as_path latents_dir) in
  let* source_latents :=
    (fun w => lift_outcome
                (load_source_latents_t t (OsPath.join latents_dir [stem]) (pickles w)) w) in
  let latent_model_input := torch_cat ([source_latents] ++ replicate 2 x) in
  let self := register_time self t in
  (* compute text embeddings *)
  let text_embed_input := torch_cat [pnp_guidance_embeds self; text_embeds self] in
  (* apply the denoising network *)
  emit (EvUnet t (unet_hooks self)) ;;
  let* noise_pred :=
    lift_stoch (unet_forward (unet self) (unet_hooks self)
                             latent_model_input t text_embed_input) in
  (* perform guidance *)
  match torch_chunk noise_pred 3 with
  | [_; noise_pred_uncond; noise_pred_cond] =>
      let* guidance_scale := getitem (config self) "guidance_scale" in
      let* scaled :=
        lift_outcome (tensor_rmul guidance_scale
                                  (tensor_sub noise_pred_cond noise_pred_uncond)) in
      let noise_pred := tensor_add noise_pred_uncond scaled in
      (* compute the denoising step with the reference model *)
      let* denoised_latent :=
        lift_stoch (scheduler_step (scheduler self) noise_pred t x) in
      ret (self, denoised_latent)
  | chunks =>
      raise (ValueError (if (length chunks <? 3)%nat
                         then "not enough values to unpack (expected 3)"
                         else "too many values to unpack (expected 3)"))
  end.

(** [PNP.init_pnp] *)
Definition init_pnp (self : PNP) (conv_injection_t qk_injection_t : Z) : PNP :=
  let qk := if 0 <=? qk_injection_t
            then slice_to (timesteps (scheduler self)) qk_injection_t else [] in
  let conv := if 0 <=? conv_injection_t
              then slice_to (timesteps (scheduler self)) conv_injection_t else [] in
  let self := set_injection_timesteps qk conv self in
  let self := register_attention_control_efficient self qk in
  register_conv_control_efficient self conv.

(** The [for] loop of [sample_loop] ([tqdm] only draws a progress bar). *)
Fixpoint denoise_loop (self : PNP) (ts : list Z) (x : tensor) : Mw (PNP * tensor) :=
  match ts with
  | [] => ret (self, x)
  | t :: ts' =>
      let* r := denoise_step self x t in
      denoise_loop (fst r) ts' (snd r)
  end.

(** The path of the output image:
    [f'{config["output_path"]}/output-{config["prompt"]}.png'] *)
Definition output_file (cfg : gmap string pyval) : Mw string :=
  let* output_path := getitem cfg "output_path" in
  let* prompt := getitem cfg "prompt" in
  ret (format output_path +:+ "/output-" +:+ format prompt +:+ ".png").

(** [PNP.sample_loop] *)
Definition sample_loop (self : PNP) (x : tensor) : Mw (PNP * tensor) :=
  let* r := denoise_loop self (timesteps (scheduler self)) x in
  let self := fst r in
  let* decoded_latent := decode_latent self (snd r) in
  let* first := lift_outcome (tensor_get decoded_latent 0) in
  let* img := lift_outcome (ToPILImage first) in
  let* file := output_file (config self) in
  save {| im_mode := fst (fst img); im_size := snd (fst img); im_data := snd img |} file ;;
  ret (self, decoded_latent).

(** [PNP.run_pnp] *)
Definition run_pnp (self : PNP) : Mw PNP :=
  let* n_timesteps := getitem (config self) "n_timesteps" in
  let* ratio := getitem (config self) "pnp_f_t" in
  let* prod := lift_result (mul n_timesteps ratio) in
  let* pnp_f_t := lift_result (int prod) in
  let* n_timesteps := getitem (config self) "n_timesteps" in
  let* ratio := getitem (config self) "pnp_attn_t" in
  let* prod := lift_result (mul n_timesteps ratio) in
  let* pnp_attn_t := lift_result (int prod) in
  let self := init_pnp self pnp_f_t pnp_attn_t in
  let* r := sample_loop self (eps self) in
  ret (fst r).

(** The [__main__] block; [argv] is the value given for [--config_path]. *)
Definition default_config_path : string := "pnp-configs/config-horse.yaml".

Definition main (argv : option string) : Mw PNP :=
  let config_path := default default_config_path argv in
  let* text := read_text config_path in
  let* cfg := lift_outcome (yaml_safe_load text) in
  let* output_path := getitem cfg "output_path" in
  let* output_path := lift_result (as_path output_path) in
  makedirs output_path ;;
  write_file (OsPath.join output_path ["config.yaml"]) (FText (yaml_dump cfg)) ;;
  let* seed := getitem cfg "seed" in
  seed_everything seed ;;
  print (PConfig cfg) ;;
  let* pnp := PNP_init cfg in
  run_pnp pnp.

(** ** Notions used in the statements *)

(** The list [init_pnp] computes from one of its arguments. *)
Definition injection_list (ts : list Z) (k : Z) : list Z :=
  if 0 <=? k then slice_to ts k else [].

(** The versions [__init__] accepts. *)
Definition supported_versions : list pyval :=
  [PyStr "2.1"; PyStr "2.0"; PyStr "1.5"; PyStr "xl-base"].


(** The stem of the image file name:
    [os.path.splitext(os.path.basename(image_path))[0]]. *)
Definition stem_of (image_path : string) : string :=
  fst (OsPath.splitext (OsPath.basename image_path)).

(** The directory of the cached latents of an image. *)
Definition latents_dir_of (latents_path image_path : string) : string :=
  OsPath.join latents_path [stem_of image_path].

(** Successive denoising steps that all return, one per time step of
    the list, each starting from the latent the one before produced. *)
Inductive steps : PNP -> list Z -> tensor -> world -> PNP -> tensor -> world -> Prop :=
| steps_nil self x w : steps self [] x w self x w
| steps_cons self t ts x w self1 x1 w1 self' x' w' :
    denoise_step self x t w = (Ok (self1, x1), w1) ->
    steps self1 ts x1 w1 self' x' w' ->
    steps self (t :: ts) x w self' x' w'.

(** The UNet call of the step at time [t] with the schedules [qk] and
    [conv] registered. *)
Definition unet_call (qk conv : option (list Z)) (t : Z) : event :=
  EvUnet t {| hook_t := Some t; hook_attn := qk; hook_conv := conv |}.

(** The tensor that is turned into the output image. *)
Definition pil_of (img : string * (Z * Z) * pixels) : pil_image :=
  {| im_mode := fst (fst img); im_size := snd (fst img); im_data := snd img |}.

(** The name of the output image. *)
Definition output_name (output_path prompt : pyval) : string :=
  format output_path +:+ "/output-" +:+ format prompt +:+ ".png".

(** What [decode_latent] does to the image the VAE returns. *)
Definition postprocess (img : tensor) : tensor :=
  tensor_clamp (tensor_adds (tensor_div img (PyInt 2)) (PyFloat f64_half))
               (PyInt 0) (PyInt 1).

(** The file of the cached latent of time step [t]. *)
Definition noisy_latents_name (t : Z) : string :=
  "noisy_latents_" +:+ pretty t +:+ ".pt".

(** What [get_data] makes of the image it opened, given the converted
    pixel data. *)
Definition prepared_image (raw : pil_image) (rgb : pixels) : pil_image :=
  resize (512, 512) LANCZOS {| im_mode := "RGB"; im_size := im_size raw; im_data := rgb |}.


Definition config_path_of (argv : option string) : string :=
  default default_config_path argv.

(** The configuration a run started in [w] with [argv] loads, and its
    output directory. *)
Definition loads_config (argv : option string) (w : world)
    (cfg : gmap string pyval) (out : string) : Prop :=
  exists text,
    files w !! config_path_of argv = Some (FText text) /\
    yaml_safe_load text = Done cfg /\
    cfg !! "output_path" = Some (PyStr out).

(** The two files a run may write. *)
Definition config_copy (out : string) : string := OsPath.join out ["config.yaml"].


(** A computation that leaves the files, the directories and the
    checkpoints as they are, and only adds to the trace. *)
Definition reads_only {A} (m : Mw A) : Prop :=
  forall w,
    files (snd (m w)) = files w /\ dirs (snd (m w)) = dirs w /\
    checkpoints (snd (m w)) = checkpoints w /\
    trace w `prefix_of` trace (snd (m w)).



(** The world after the configuration was read, the output directory
    made and the copy of the configuration written. *)
Definition after_prelude (argv : option string) (cfg : gmap string pyval) (out : string)
    (w : world) : world :=
  {| files := <[config_copy out := FText (yaml_dump cfg)]> (files w);
     dirs := {[out]} ∪ dirs w;
     checkpoints := checkpoints w;
     gen := gen w;
     trace := trace w ++ [EvRead (config_path_of argv); EvMakedirs out;
                          EvWrite (config_copy out)] |}.

(** The rest of the [__main__] block, from [seed_everything] on. *)
Definition run_config (cfg : gmap string pyval) : Mw PNP :=
  let* seed := getitem cfg "seed" in
  seed_everything seed ;;
  print (PConfig cfg) ;;
  let* pnp := PNP_init cfg in
  run_pnp pnp.






(** ** The rest of the class *)

(** [PNP.get_text_embeds], which nothing calls.  It reads the attributes
    [tokenizer], [text_encoder] and [device]; the tokenizer and the text
    encoder of the pipeline are taken as given. *)
Section TextEncoder.
Variables tokenizer_t text_encoder_t tokens : Type.
(* [tokenizer(text, padding='max_length', max_length=..., truncation=..., return_tensors='pt')] *)
Variable tokenize : tokenizer_t -> pyval -> bool -> outcome tokens.
(* [input.input_ids.to(device)] *)
Variable input_ids_to : tokens -> pyval -> outcome tokens.
(* [text_encoder(ids)[0]] *)
Variable encode_text : text_encoder_t -> tokens -> stoch generator tensor.


End TextEncoder.

(** The object with another image tensor in [self.image]. *)
Definition with_image (img : tensor) (self : PNP) : PNP :=
  {| config := config self; device := device self; pipe := pipe self;
     vae := vae self; unet := unet self; scheduler := scheduler self;
     image := img; eps := eps self; text_embeds := text_embeds self;
     pnp_guidance_embeds := pnp_guidance_embeds self;
     qk_injection_timesteps := qk_injection_timesteps self;
     conv_injection_timesteps := conv_injection_timesteps self;
     unet_hooks := unet_hooks self |}.

(** The pair a step or the loop returns, with the image replaced in the
    object. *)
Definition with_image_fst (img : tensor) (r : PNP * tensor) : PNP * tensor :=
  (with_image img (fst r), snd r).

(** The result of a computation, with a function applied to the value. *)
Definition map_result {A B} (f : A -> B) (r : result A) : result B :=
  match r with
  | Ok a => Ok (f a)
  | Raise e => Raise e
  end.

(** A string without the separator. *)
Fixpoint no_sep (s : string) : bool :=
  match s with
  | EmptyString => true
  | String a r => negb (Ascii.eqb a OsPath.sep) && no_sep r
  end.

(** A string without the dot. *)
Fixpoint no_dot (s : string) : bool :=
  match s with
  | EmptyString => true
  | String a r => negb (Ascii.eqb a OsPath.extsep) && no_dot r
  end.

(** The events that change the disk. *)
Definition is_write (e : event) : bool :=
  match e with
  | EvWrite _ | EvMakedirs _ => true
  | _ => false
  end.

Definition writes_of (t : list event) : list event := List.filter is_write t.

(** A computation that adds no such event to the trace. *)
Definition adds_no_write {A} (m : Mw A) : Prop :=
  forall w, writes_of (trace (snd (m w))) = writes_of (trace w).

(** The object with another configuration, and with another scheduler. *)
Definition with_config (cfg : gmap string pyval) (self : PNP) : PNP :=
  {| config := cfg; device := device self; pipe := pipe self;
     vae := vae self; unet := unet self; scheduler := scheduler self;
     image := image self; eps := eps self; text_embeds := text_embeds self;
     pnp_guidance_embeds := pnp_guidance_embeds self;
     qk_injection_timesteps := qk_injection_timesteps self;
     conv_injection_timesteps := conv_injection_timesteps self;
     unet_hooks := unet_hooks self |}.

Definition with_scheduler (sch : sched_t) (self : PNP) : PNP :=
  {| config := config self; device := device self; pipe := pipe self;
     vae := vae self; unet := unet self; scheduler := sch;
     image := image self; eps := eps self; text_embeds := text_embeds self;
     pnp_guidance_embeds := pnp_guidance_embeds self;
     qk_injection_timesteps := qk_injection_timesteps self;
     conv_injection_timesteps := conv_injection_timesteps self;
     unet_hooks := unet_hooks self |}.

(** The checkpoint of a supported version, and the models the
    constructor loads from it, in order. *)
Definition model_key_of (sd_version : string) : string :=
  if String.eqb sd_version "2.1" then "stabilityai/stable-diffusion-2-1-base"
  else if String.eqb sd_version "2.0" then "stabilityai/stable-diffusion-2-base"
  else if String.eqb sd_version "1.5" then "/home/heyi/llm/stable-diffusion-v1-5"
  else "/home/heyi/llm/stable-diffusion-xl-base-1.0/".

Definition loaded_models (sd_version : string) : list event :=
  ((if String.eqb sd_version "xl-base"
    then [EvFromPretrained "UNet2DConditionModel" (model_key_of sd_version);
          EvFromPretrained "StableDiffusionXLPipeline" (model_key_of sd_version)]
    else [EvFromPretrained "StableDiffusionPipeline" (model_key_of sd_version)])
   ++ [EvFromPretrained "DDIMScheduler" (model_key_of sd_version)])%list.

End Script.

(** ** A small library instance

  Tensors are lists of integers, a batch element being one integer.
  The instance makes the script executable on concrete worlds. *)

Module Toy.

Definition f64_7_5 : float64 := S754_finite false 8444249301319680 (-50).
Definition f64_0_8 : float64 := S754_finite false 7205759403792794 (-53).
Definition f64_0_5 : float64 := S754_finite false 4503599627370496 (-53).

Definition horse_cfg : gmap string pyval :=
  list_to_map
    [("device", PyStr "cuda"); ("sd_version", PyStr "xl-base");
     ("n_timesteps", PyInt 2); ("prompt", PyStr "a photo of a cat");
     ("negative_prompt", PyStr "ugly"); ("guidance_scale", PyFloat f64_7_5);
     ("pnp_f_t", PyFloat f64_0_8); ("pnp_attn_t", PyFloat f64_0_5);
     ("image_path", PyStr "data/horse.png"); ("latents_path", PyStr "latents");
     ("output_path", PyStr "out"); ("seed", PyInt 1)].

(** The same run, pointed at an image that lies where the output goes. *)
Definition alias_cfg : gmap string pyval :=
  <["image_path" := PyStr "out/output-a photo of a cat.png"]> horse_cfg.


(** The parser of the instance knows the documents of the examples. *)
Definition documents : list (string * gmap string pyval) :=
  [("horse", horse_cfg); ("alias", alias_cfg)].

Definition lookup_doc (text : string) : outcome (gmap string pyval) :=
  match find (fun d => String.eqb (fst d) text) documents with
  | Some d => Done (snd d)
  | None => Failed "yaml.YAMLError"
  end.

Definition show (v : pyval) : string :=
  match v with
  | PyNone => "null"
  | PyBool b => if b then "true" else "false"
  | PyInt z => pretty z
  | PyFloat _ => "<float>"
  | PyStr s => s
  end.

Definition dump (cfg : gmap string pyval) : string :=
  fold_right (fun kv acc => fst kv +:+ ": " +:+ show (snd kv) +:+ "; " +:+ acc) EmptyString
             (map_to_list cfg).

Definition scale (k : pyval) (t : list Z) : outcome (list Z) :=
  match Py.int k with
  | Ok z => Done (map (Z.mul z) t)
  | Raise _ => Failed "unsupported operand"
  end.

(** [torch.chunk]: pieces of [ceil(len / n)] elements. *)
Fixpoint pieces (fuel size : nat) (t : list Z) : list (list Z) :=
  match fuel, t with
  | O, _ | _, [] => []
  | S fuel', _ => take size t :: pieces fuel' size (drop size t)
  end.
Definition chunk (t : list Z) (n : nat) : list (list Z) :=
  pieces (length t) (Nat.div (length t + n - 1) n) t.

Definition from_store {A} (st : list string) (key : string) (a : A)
  : stoch Z A :=
  fun g => (if existsb (String.eqb key) st then Done a
            else Failed "checkpoint not found", g).

(** DDIM with leading spacing and offset 1. *)
Definition ddim_timesteps (n : Z) : list Z :=
  map (fun i => (n - 1 - Z.of_nat i) * (1000 / n) + 1) (seq 0 (Z.to_nat n)).

#[global] Instance lib : Library := {|
  tensor := list Z;
  pixels := list Z;
  store := list string;
  generator := Z;
  pipe_t := string;
  unet_t := string;
  vae_t := unit;
  sched_t := list Z;
  yaml_safe_load := lookup_doc;
  yaml_dump := dump;
  float_repr := fun _ => "<float>";
  manual_seed := fun v => match v with PyInt z => Done z | _ => Failed "seed" end;
  torch_cat := @concat Z;
  torch_chunk := chunk;
  tensor_add := zip_with Z.add;
  tensor_sub := zip_with Z.sub;
  tensor_rmul := scale;
  tensor_div := fun t k => match Py.int k with Ok z => map (fun x => x / z) t | _ => t end;
  tensor_adds := fun t _ => t;
  tensor_clamp := fun t _ _ => map (fun x => Z.max 0 (Z.min 255 x)) t;
  tensor_to := fun t d => match d with PyStr _ => Done t | _ => Failed "device" end;
  tensor_get := fun t i => match t !! i with Some x => Done [x] | None => Failed "index" end;
  convert_pixels := fun _ _ px => Done px;
  resize_pixels := fun _ _ _ px => px;
  ToTensor := fun _ _ px => px;
  ToPILImage := fun t => Done ("RGB", (512, 512), t);
  unet_from_pretrained := fun st key => from_store st key key;
  unet_to := fun u _ => Done u;
  sd_from_pretrained := fun st key => from_store st key key;
  sdxl_from_pretrained := fun st key _ => from_store st key key;
  pipe_to := fun p _ => Done p;
  enable_xformers_memory_efficient_attention := fun p => Done p;
  pipe_vae := fun _ => tt;
  pipe_unet := fun p => p;
  ddim_from_pretrained := fun st key => from_store st key [];
  set_timesteps := fun _ n _ =>
    match n with PyInt z => Done (ddim_timesteps z) | _ => Failed "num_inference_steps" end;
  timesteps := fun s => s;
  scheduler_step := fun _ noise t x g => (Done (zip_with Z.sub x noise), g + 1);
  encode_prompt := fun _ _ _ _ g => (Done ([1], [2], [3], [4]), g);
  unet_forward := fun _ _ x t _ g => (Done (map (fun v => v + t + g) x), g + 1);
  vae_scaling_factor := fun _ => PyFloat f64_0_5;
  vae_decode := fun _ t g => (Done t, g);
  load_source_latents_t := fun t dir view =>
    match view (OsPath.join dir ["noisy_latents_" +:+ pretty t +:+ ".pt"]) with
    | Some x => Done x
    | None => Failed "Missing latents"
    end
|}.

Definition horse_image : pil_image :=
  {| im_mode := "L"; im_size := (640, 480); im_data := [7; 8; 9] |}.

Definition horse_files : gmap string fcontent :=
  list_to_map
    [("cfg.yaml", FText "horse");
     ("data/horse.png", FImage horse_image);
     ("latents/horse/noisy_latents_501.pt", FPickle [40]);
     ("latents/horse/noisy_latents_1.pt", FPickle [10])].

Definition horse_world (g : Z) : world :=
  {| files := horse_files; dirs := ∅;
     checkpoints := ["/home/heyi/llm/stable-diffusion-xl-base-1.0/"];
     gen := g; trace := [] |}.



(** The object the constructor builds from [horse_cfg]. *)
Definition horse_pnp : PNP :=
  {| config := horse_cfg; device := PyStr "cuda";
     pipe := "/home/heyi/llm/stable-diffusion-xl-base-1.0/";
     vae := tt;
     unet := "/home/heyi/llm/stable-diffusion-xl-base-1.0/";
     scheduler := [501; 1];
     image := [7; 8; 9]; eps := [40];
     text_embeds := [2; 1]; pnp_guidance_embeds := [2];
     qk_injection_timesteps := None; conv_injection_timesteps := None;
     unet_hooks := {| hook_t := None; hook_attn := None; hook_conv := None |} |}.

End Toy.

(** ** Inputs of runs that fail or stop early *)

Module Edge.

(** A world without the image and the cached latents. *)
Definition bare_world : world :=
  {| files := {["cfg.yaml" := FText "horse"]}; dirs := ∅;
     checkpoints := ["/home/heyi/llm/stable-diffusion-xl-base-1.0/"];
     gen := 1; trace := [] |}.

(** A world with a file where the output directory should be. *)
Definition blocked_world : world :=
  {| files := <["out" := FText "not a directory"]> Toy.horse_files; dirs := ∅;
     checkpoints := ["/home/heyi/llm/stable-diffusion-xl-base-1.0/"];
     gen := 1; trace := [] |}.

(** Objects with a configuration that lacks [guidance_scale], with a
    ratio that is not a number, and with a scheduler without time steps. *)
Definition unguided_pnp : PNP :=
  with_config (delete "guidance_scale" Toy.horse_cfg) Toy.horse_pnp.

Definition nan_pnp : PNP :=
  with_config (<["pnp_f_t" := PyFloat S754_nan]> Toy.horse_cfg) Toy.horse_pnp.

Definition idle_pnp : PNP := with_scheduler [] Toy.horse_pnp.

(** Schedulers without time steps, and with a time step that has no
    cached latent. *)
Definition idle_scheduler : sched_t := [].
Definition late_scheduler : sched_t := [999].




End Edge.

(** ** An instance with incomplete configurations

  The instance of [Toy], but its parser knows configurations that lack a
  key and the scaling factor of its VAE is zero. *)

Module Broken.

Definition no_output_cfg : gmap string pyval := delete "output_path" Toy.horse_cfg.
Definition no_seed_cfg : gmap string pyval := delete "seed" Toy.horse_cfg.

Definition documents : list (string * gmap string pyval) :=
  [("no output", no_output_cfg); ("no seed", no_seed_cfg)].

Definition lookup_doc (text : string) : outcome (gmap string pyval) :=
  match find (fun d => String.eqb (fst d) text) documents with
  | Some d => Done (snd d)
  | None => Failed "yaml.YAMLError"
  end.

Definition lib : Library := {|
  tensor := list Z;
  pixels := list Z;
  store := list string;
  generator := Z;
  pipe_t := string;
  unet_t := string;
  vae_t := unit;
  sched_t := list Z;
  yaml_safe_load := lookup_doc;
  yaml_dump := Toy.dump;
  float_repr := fun _ => "<float>";
  manual_seed := @manual_seed Toy.lib;
  torch_cat := @concat Z;
  torch_chunk := Toy.chunk;
  tensor_add := zip_with Z.add;
  tensor_sub := zip_with Z.sub;
  tensor_rmul := Toy.scale;
  tensor_div := @tensor_div Toy.lib;
  tensor_adds := fun t _ => t;
  tensor_clamp := @tensor_clamp Toy.lib;
  tensor_to := @tensor_to Toy.lib;
  tensor_get := @tensor_get Toy.lib;
  convert_pixels := fun _ _ px => Done px;
  resize_pixels := fun _ _ _ px => px;
  ToTensor := fun _ _ px => px;
  ToPILImage := @ToPILImage Toy.lib;
  unet_from_pretrained := fun st key => Toy.from_store st key key;
  unet_to := fun u _ => Done u;
  sd_from_pretrained := fun st key => Toy.from_store st key key;
  sdxl_from_pretrained := fun st key _ => Toy.from_store st key key;
  pipe_to := fun p _ => Done p;
  enable_xformers_memory_efficient_attention := fun p => Done p;
  pipe_vae := fun _ => tt;
  pipe_unet := fun p => p;
  ddim_from_pretrained := fun st key => Toy.from_store st key [];
  set_timesteps := @set_timesteps Toy.lib;
  timesteps := fun s => s;
  scheduler_step := @scheduler_step Toy.lib;
  encode_prompt := @encode_prompt Toy.lib;
  unet_forward := @unet_forward Toy.lib;
  vae_scaling_factor := fun _ => PyInt 0;
  vae_decode := fun _ t g => (Done t, g);
  load_source_latents_t := @load_source_latents_t Toy.lib
|}.

(** A world whose configuration file holds the document of that name. *)
Definition world_of (name : string) : @world lib :=
  @Build_world lib {["cfg.yaml" := @FText lib name]} ∅
               ["/home/heyi/llm/stable-diffusion-xl-base-1.0/"] 1 [].

(** An object of this instance. *)
Definition pnp : @PNP lib :=
  @Build_PNP lib Toy.horse_cfg (PyStr "cuda")
             "/home/heyi/llm/stable-diffusion-xl-base-1.0/" tt
             "/home/heyi/llm/stable-diffusion-xl-base-1.0/" [501; 1]
             [7; 8; 9] [40] [2; 1] [2] None None
             {| hook_t := None; hook_attn := None; hook_conv := None |}.

End Broken.



(** ** Reasoning about runs *)

Section Monad.
Context {S : Type}.
Implicit Types w : S.

Lemma bind_ok {A B} (m : M S A) (k : A -> M S B) w b w' :
  bind m k w = (Ok b, w') <-> exists a w1, m w = (Ok a, w1) /\ k a w1 = (Ok b, w').
Proof.
  unfold bind. destruct (m w) as [[a|e] w1]; split.
  - eauto.
  - intros (a' & w2 & Heq & Hk). congruence.
  - discriminate.
  - intros (a' & w2 & Heq & Hk). discriminate.
Qed.

Lemma bind_raise {A B} (m : M S A) (k : A -> M S B) w e w' :
  bind m k w = (Raise e, w') <->
  m w = (Raise e, w') \/ exists a w1, m w = (Ok a, w1) /\ k a w1 = (Raise e, w').
Proof.
  unfold bind. destruct (m w) as [[a|e1] w1]; split.
  - eauto.
  - intros [Heq | (a' & w2 & Heq & Hk)]; congruence.
  - intros Heq. left. congruence.
  - intros [Heq | (a' & w2 & Heq & Hk)]; congruence.
Qed.

Lemma bind_step {A B} (m : M S A) (k : A -> M S B) w a w1 :
  m w = (Ok a, w1) -> bind m k w = k a w1.
Proof. unfold bind. intros ->. reflexivity. Qed.

Lemma bind_fail {A B} (m : M S A) (k : A -> M S B) w e w1 :
  m w = (Raise e, w1) -> bind m k w = (Raise e, w1).
Proof. unfold bind. intros ->. reflexivity. Qed.

Lemma ret_ok {A} (a b : A) w w' : ret a w = (Ok b, w') <-> b = a /\ w' = w.
Proof. unfold ret. split; [intros [= -> ->] | intros [-> ->]]; auto. Qed.

Lemma raise_ok {A} e (b : A) w w' : raise e w = (Ok b, w') <-> False.
Proof. unfold raise. split; [discriminate | tauto]. Qed.

End Monad.

Section Properties.
Context `{L : Library}.
Implicit Types (w : world) (cfg : gmap string pyval) (self : PNP).

(** *** What the primitives do when they return *)

Lemma lift_result_ok {A} (r : result A) a w w' :
  lift_result r w = (Ok a, w') <-> r = Ok a /\ w' = w.
Proof. unfold lift_result. split; [intros [= -> ->] | intros [-> ->]]; auto. Qed.

Lemma lift_outcome_ok {A} (o : outcome A) a w w' :
  lift_outcome o w = (Ok a, w') <-> o = Done a /\ w' = w.
Proof.
  unfold lift_outcome. destruct o; split;
    [intros [= -> ->] | intros [[= ->] ->] | discriminate | intros [[=] _]]; auto.
Qed.

Lemma lift_stoch_ok {A} (f : stoch generator A) a w w' :
  lift_stoch f w = (Ok a, w') <-> exists g, f (gen w) = (Done a, g) /\ w' = set_gen g w.
Proof.
  unfold lift_stoch. destruct (f (gen w)) as [[b|what] g]; split.
  - intros [= -> <-]. eauto.
  - intros (g' & [= -> ->] & ->). reflexivity.
  - discriminate.
  - intros (g' & [=] & _).
Qed.

Lemma emit_ok e u w w' :
  emit e w = (Ok u, w') <-> w' = set_trace (trace w ++ [e]) w.
Proof. unfold emit. destruct u. split; [intros [= <-] | intros ->]; auto. Qed.

Lemma getitem_ok cfg k v w w' :
  getitem cfg k w = (Ok v, w') <-> cfg !! k = Some v /\ w' = w.
Proof.
  unfold getitem. destruct (cfg !! k); [rewrite ret_ok | rewrite raise_ok]; split.
  - intros [-> ->]; auto.
  - intros [[= ->] ->]; auto.
  - tauto.
  - intros [[=] _].
Qed.

Lemma read_file_ok p c w w' :
  read_file p w = (Ok c, w') <->
  files w !! p = Some c /\ w' = set_trace (trace w ++ [EvRead p]) w.
Proof.
  unfold read_file, bind, emit. simpl. destruct (files w !! p); split.
  - intros [= -> <-]; auto.
  - intros [[= ->] ->]; auto.
  - discriminate.
  - intros [[=] _].
Qed.

Lemma get_checkpoints_ok st w w' :
  get_checkpoints w = (Ok st, w') <-> st = checkpoints w /\ w' = w.
Proof. unfold get_checkpoints. split; [intros [= <- <-] | intros [-> ->]]; auto. Qed.

Lemma read_text_ok p t w w' :
  read_text p w = (Ok t, w') <->
  files w !! p = Some (FText t) /\ w' = set_trace (trace w ++ [EvRead p]) w.
Proof.
  unfold read_text. rewrite bind_ok. split.
  - intros (c & w1 & Hr & Hk). apply read_file_ok in Hr as [Hc ->].
    destruct c; [apply ret_ok in Hk as [-> ->]; auto | apply raise_ok in Hk as [] ..].
  - intros [Hc ->]. eexists _, _. rewrite read_file_ok. split; [split; eauto|]. reflexivity.
Qed.

Lemma Image_open_ok p i w w' :
  Image_open p w = (Ok i, w') <->
  files w !! p = Some (FImage i) /\ w' = set_trace (trace w ++ [EvRead p]) w.
Proof.
  unfold Image_open. rewrite bind_ok. split.
  - intros (c & w1 & Hr & Hk). apply read_file_ok in Hr as [Hc ->].
    destruct c; [apply raise_ok in Hk as [] .. | apply ret_ok in Hk as [-> ->]; auto].
  - intros [Hc ->]. eexists _, _. rewrite read_file_ok. split; [split; eauto|]. reflexivity.
Qed.

Lemma torch_load_ok p t w w' :
  torch_load p w = (Ok t, w') <->
  files w !! p = Some (FPickle t) /\ w' = set_trace (trace w ++ [EvRead p]) w.
Proof.
  unfold torch_load. rewrite bind_ok. split.
  - intros (c & w1 & Hr & Hk). apply read_file_ok in Hr as [Hc ->].
    destruct c; [apply raise_ok in Hk as [] | apply ret_ok in Hk as [-> ->]; auto
                | apply raise_ok in Hk as []].
  - intros [Hc ->]. eexists _, _. rewrite read_file_ok. split; [split; eauto|]. reflexivity.
Qed.

Lemma write_file_ok p c u w w' :
  write_file p c w = (Ok u, w') <->
  w' = set_files (<[p := c]> (files w)) (set_trace (trace w ++ [EvWrite p]) w).
Proof.
  unfold write_file, bind, emit. destruct u. simpl.
  split; [intros [= <-] | intros ->]; reflexivity.
Qed.

Lemma makedirs_ok p u w w' :
  makedirs p w = (Ok u, w') <->
  files w !! p = None /\
  w' = set_dirs ({[p]} ∪ dirs w) (set_trace (trace w ++ [EvMakedirs p]) w).
Proof.
  unfold makedirs, bind, emit. destruct u. simpl. destruct (files w !! p); split.
  - discriminate.
  - intros [[=] _].
  - intros [= <-]; auto.
  - intros [_ ->]; auto.
Qed.

Lemma convert_ok mode i i' w w' :
  convert mode i w = (Ok i', w') <->
  exists d, convert_pixels (im_mode i) mode (im_data i) = Done d /\
            i' = {| im_mode := mode; im_size := im_size i; im_data := d |} /\ w' = w.
Proof.
  unfold convert. rewrite bind_ok. split.
  - intros (d & w1 & Hc & Hk). apply lift_outcome_ok in Hc as [Hc ->].
    apply ret_ok in Hk as [-> ->]. eauto.
  - intros (d & Hc & -> & ->). eexists _, _. rewrite lift_outcome_ok, ret_ok. eauto.
Qed.

Lemma as_path_ok v p : as_path v = Ok p <-> v = PyStr p.
Proof. destruct v; simpl; split; intros [=]; subst; reflexivity. Qed.

(** Taking a run that returned apart, one operation at a time. *)
Ltac inv_step :=
  match goal with
    | H : bind _ _ _ = (Ok _, _) |- _ =>
        apply bind_ok in H; destruct H as (? & ? & ? & H)
    | H : ret _ _ = (Ok _, _) |- _ => apply ret_ok in H; destruct H as [? ?]; subst
    | H : raise _ _ = (Ok _, _) |- _ => apply raise_ok in H; destruct H
    | H : getitem _ _ _ = (Ok _, _) |- _ => apply getitem_ok in H; destruct H as [H ?]; subst
    | H : lift_result _ _ = (Ok _, _) |- _ =>
        apply lift_result_ok in H; destruct H as [H ?]; subst
    | H : lift_outcome _ _ = (Ok _, _) |- _ =>
        apply lift_outcome_ok in H; destruct H as [H ?]; subst
    | H : lift_stoch _ _ = (Ok _, _) |- _ =>
        apply lift_stoch_ok in H; destruct H as (? & H & ?); subst
    | H : emit _ _ = (Ok _, _) |- _ => apply emit_ok in H; subst
    | H : print _ _ = (Ok _, _) |- _ => apply emit_ok in H; subst
    | H : get_checkpoints _ = (Ok _, _) |- _ =>
        apply get_checkpoints_ok in H; destruct H as [? ?]; subst
    | H : read_text _ _ = (Ok _, _) |- _ => apply read_text_ok in H; destruct H as [H ?]; subst
    | H : Image_open _ _ = (Ok _, _) |- _ => apply Image_open_ok in H; destruct H as [H ?]; subst
    | H : torch_load _ _ = (Ok _, _) |- _ => apply torch_load_ok in H; destruct H as [H ?]; subst
    | H : write_file _ _ _ = (Ok _, _) |- _ => apply write_file_ok in H; subst
    | H : save _ _ _ = (Ok _, _) |- _ => apply write_file_ok in H; subst
    | H : makedirs _ _ = (Ok _, _) |- _ => apply makedirs_ok in H; destruct H as [H ?]; subst
    | H : convert _ _ _ = (Ok _, _) |- _ =>
        apply convert_ok in H; destruct H as (? & H & ? & ?); subst
    | H : as_path _ = Ok _ |- _ => apply as_path_ok in H; subst
    | H : (_, _) = (_, _) |- _ => injection H as ? ?; subst
    | H : (if ?b then _ else _) _ = (Ok _, _) |- _ => destruct b eqn:?
    | H : (fun _ => _) _ = (_, _) |- _ => cbv beta in H
    end.

Ltac inv_run := repeat inv_step.

(** *** Slices *)

Lemma slice_to_nonneg {A} (xs : list A) k :
  0 <= k -> slice_to xs k = take (Z.to_nat k) xs.
Proof. intros Hk. unfold slice_to. destruct (Z.leb_spec 0 k); [reflexivity | lia]. Qed.

Lemma injection_list_take ts k : injection_list ts k = take (Z.to_nat k) ts.
Proof.
  unfold injection_list. destruct (Z.leb_spec 0 k) as [Hk|Hk].
  - apply slice_to_nonneg, Hk.
  - replace (Z.to_nat k) with 0%nat by lia. reflexivity.
Qed.

Lemma init_pnp_lists self conv_t qk_t :
  conv_injection_timesteps (init_pnp self conv_t qk_t)
    = Some (injection_list (timesteps (scheduler self)) conv_t) /\
  qk_injection_timesteps (init_pnp self conv_t qk_t)
    = Some (injection_list (timesteps (scheduler self)) qk_t) /\
  hook_conv (unet_hooks (init_pnp self conv_t qk_t))
    = Some (injection_list (timesteps (scheduler self)) conv_t) /\
  hook_attn (unet_hooks (init_pnp self conv_t qk_t))
    = Some (injection_list (timesteps (scheduler self)) qk_t).
Proof. repeat split. Qed.

(** [C10] Whatever integers [init_pnp] receives, each injection list is a
    prefix of the scheduler's time steps (the first [k] of them for an
    argument [k]): empty for a negative argument and for 0, and all of
    the time steps for an argument of at least their number
    [n_timesteps]. *)
Theorem init_pnp_prefix self (conv_t qk_t n_timesteps : Z) :
  length (timesteps (scheduler self)) = Z.to_nat n_timesteps ->
  let ts := timesteps (scheduler self) in
  let self' := init_pnp self conv_t qk_t in
  exists conv qk,
    conv_injection_timesteps self' = Some conv /\
    qk_injection_timesteps self' = Some qk /\
    conv = take (Z.to_nat conv_t) ts /\ qk = take (Z.to_nat qk_t) ts /\
    conv `prefix_of` ts /\ qk `prefix_of` ts /\
    (conv_t < 0 -> conv = []) /\ (qk_t < 0 -> qk = []) /\
    (conv_t = 0 -> conv = []) /\ (qk_t = 0 -> qk = []) /\
    (n_timesteps <= conv_t -> conv = ts) /\ (n_timesteps <= qk_t -> qk = ts).
Proof.
  intros Hlen ts self'.
  destruct (init_pnp_lists self conv_t qk_t) as (Hc & Hq & _).
  exists (take (Z.to_nat conv_t) ts), (take (Z.to_nat qk_t) ts).
  subst self' ts. rewrite Hc, Hq, !injection_list_take.
  repeat split; try apply prefix_take.
  - intros Hneg. replace (Z.to_nat conv_t) with 0%nat by lia. reflexivity.
  - intros Hneg. replace (Z.to_nat qk_t) with 0%nat by lia. reflexivity.
  - intros ->. reflexivity.
  - intros ->. reflexivity.
  - intros Hge. apply take_ge. lia.
  - intros Hge. apply take_ge. lia.
Qed.

(** The guard of [init_pnp] matters: a bare negative slice keeps all but
    the last elements. *)
Example slice_to_negative : slice_to [981; 961; 941; 921] (-1) = [981; 961; 941].
Proof. reflexivity. Qed.

(** *** The constructor and [ValueError] *)

Lemma getitem_some cfg k v w : cfg !! k = Some v -> getitem cfg k w = (Ok v, w).
Proof. intros H. apply getitem_ok. auto. Qed.

Lemma eq_str_true v s : eq_str v s = true <-> v = PyStr s.
Proof.
  destruct v; simpl; try (split; [discriminate | intros [=]]).
  rewrite String.eqb_eq. split; [intros -> | intros [= ->]]; reflexivity.
Qed.




















(** *** One denoising step *)

Lemma image_stem_ok cfg stem w w' :
  image_stem cfg w = (Ok stem, w') <->
  exists ip, cfg !! "image_path" = Some (PyStr ip) /\ stem = stem_of ip /\ w' = w.
Proof.
  unfold image_stem. split.
  - intros H. inv_run. eauto.
  - intros (ip & Hip & -> & ->).
    apply bind_ok. eexists _, _. split; [apply getitem_some, Hip |].
    apply bind_ok. eexists _, _. split; [apply lift_result_ok; split; reflexivity |].
    reflexivity.
Qed.

Lemma get_text_embeds_xl_ok p prompt negative_prompt n t w w' :
  get_text_embeds_xl p prompt negative_prompt n w = (Ok t, w') <->
  exists pe npe ppe nppe g,
    encode_prompt p prompt negative_prompt n (gen w) = (Done (pe, npe, ppe, nppe), g) /\
    t = torch_cat [npe; pe] /\ w' = set_gen g w.
Proof.
  unfold get_text_embeds_xl. rewrite bind_ok. split.
  - intros ([[[pe npe] ppe] nppe] & w1 & He & Hk).
    apply lift_stoch_ok in He as (g & He & ->). apply ret_ok in Hk as [-> ->].
    eauto 8.
  - intros (pe & npe & ppe & nppe & g & He & -> & ->).
    eexists (_, _, _, _), _. split; [apply lift_stoch_ok; eauto |]. reflexivity.
Qed.

Ltac inv_run ::=
  repeat first
    [ inv_step
    | match goal with
      | H : image_stem _ _ = (Ok _, _) |- _ =>
          apply image_stem_ok in H; destruct H as (? & H & ? & ?); subst
      | H : get_text_embeds_xl _ _ _ _ _ = (Ok _, _) |- _ =>
          apply get_text_embeds_xl_ok in H; destruct H as (? & ? & ? & ? & ? & H & ? & ?);
          subst
      end ].

(** Showing that a run returns, one operation at a time. *)
Ltac prim_ok :=
  first
    [ apply getitem_ok; split; [eassumption | reflexivity]
    | apply lift_result_ok; split; [first [eassumption | reflexivity] | reflexivity]
    | apply lift_outcome_ok; split; [eassumption | reflexivity]
    | apply lift_stoch_ok; eexists; split; [eassumption | reflexivity]
    | apply emit_ok; reflexivity
    | apply get_checkpoints_ok; split; reflexivity
    | apply image_stem_ok; eexists; split; [eassumption | split; reflexivity]
    | apply Image_open_ok; split; [eassumption | reflexivity]
    | apply torch_load_ok; split; [eassumption | reflexivity]
    | apply read_text_ok; split; [eassumption | reflexivity]
    | apply write_file_ok; reflexivity
    | apply makedirs_ok; split; [eassumption | reflexivity]
    | apply convert_ok; eexists; split; [eassumption | split; reflexivity] ].

Ltac run_ok :=
  repeat (apply bind_ok; eexists _, _; split; [prim_ok |]).

Lemma denoise_step_ok self x t w self' d w' :
  denoise_step self x t w = (Ok (self', d), w') <->
  exists lat ip src noise_pred g1 s u c scale scaled g2,
    config self !! "latents_path" = Some (PyStr lat) /\
    config self !! "image_path" = Some (PyStr ip) /\
    load_source_latents_t t (latents_dir_of lat ip) (pickles w) = Done src /\
    unet_forward (unet self) (unet_hooks (register_time self t))
                 (torch_cat [src; x; x]) t
                 (torch_cat [pnp_guidance_embeds self; text_embeds self]) (gen w)
      = (Done noise_pred, g1) /\
    torch_chunk noise_pred 3 = [s; u; c] /\
    config self !! "guidance_scale" = Some scale /\
    tensor_rmul scale (tensor_sub c u) = Done scaled /\
    scheduler_step (scheduler self) (tensor_add u scaled) t x g1 = (Done d, g2) /\
    self' = register_time self t /\
    w' = set_gen g2 (set_trace (trace w ++ [EvUnet t (unet_hooks (register_time self t))]) w).
Proof.
  unfold denoise_step. split.
  - intros H. inv_run.
    destruct (torch_chunk _ 3) as [|s [|u [|c [|]]]] eqn:Hchunk; inv_run.
    do 11 eexists. repeat split; eassumption.
  - intros (lat & ip & src & noise_pred & g1 & s & u & c & scale & scaled & g2
            & Hlat & Hip & Hsrc & Hunet & Hchunk & Hscale & Hmul & Hstep & -> & ->).
    run_ok. rewrite Hchunk. run_ok. reflexivity.
Qed.

(** *** The loop *)

Lemma denoise_loop_steps self ts x w self' x' w' :
  denoise_loop self ts x w = (Ok (self', x'), w') <-> steps self ts x w self' x' w'.
Proof.
  revert self x w. induction ts as [|t ts IH]; intros self x w; simpl.
  - rewrite ret_ok. split.
    + intros [[= -> ->] ->]. constructor.
    + inversion 1; subst. auto.
  - rewrite bind_ok. split.
    + intros ([self1 x1] & w1 & Hstep & Hloop). simpl in Hloop.
      apply IH in Hloop. econstructor; eassumption.
    + inversion 1; subst. eexists (_, _), _. split; [eassumption |].
      simpl. apply IH. assumption.
Qed.

(** What stays the same across the steps, and what they leave in the
    trace. *)
Lemma steps_invariant self ts x w self' x' w' :
  steps self ts x w self' x' w' ->
  config self' = config self /\ scheduler self' = scheduler self /\
  vae self' = vae self /\
  qk_injection_timesteps self' = qk_injection_timesteps self /\
  conv_injection_timesteps self' = conv_injection_timesteps self /\
  hook_attn (unet_hooks self') = hook_attn (unet_hooks self) /\
  hook_conv (unet_hooks self') = hook_conv (unet_hooks self) /\
  files w' = files w /\ dirs w' = dirs w /\ checkpoints w' = checkpoints w /\
  trace w' = (trace w ++
     map (unet_call (hook_attn (unet_hooks self)) (hook_conv (unet_hooks self))) ts)%list.
Proof.
  induction 1 as [self x w | self t ts x w self1 x1 w1 self' x' w' Hstep Hsteps IH].
  - simpl. rewrite app_nil_r. repeat split.
  - apply denoise_step_ok in Hstep
      as (lat & ip & src & np & g1 & s & u & c & scale & scaled & g2 & _ & _ & _ & _ & _ & _
          & _ & _ & -> & ->).
    destruct IH as (-> & -> & -> & -> & -> & -> & -> & -> & -> & -> & ->).
    simpl. rewrite <- app_assoc. repeat split.
Qed.

Lemma decode_latent_ok self latent w img w' :
  decode_latent self latent w = (Ok img, w') <->
  exists k scaled raw g,
    truediv (PyInt 1) (vae_scaling_factor (vae self)) = Ok k /\
    tensor_rmul k latent = Done scaled /\
    vae_decode (vae self) scaled (gen w) = (Done raw, g) /\
    img = postprocess raw /\
    w' = set_gen g (set_trace (trace w ++ [EvDecode latent]) w).
Proof.
  unfold decode_latent. split.
  - intros H. inv_run. do 4 eexists. repeat split; eassumption.
  - intros (k & scaled & raw & g & Hk & Hmul & Hdec & -> & ->).
    run_ok. reflexivity.
Qed.

Lemma output_file_ok cfg file w w' :
  output_file cfg w = (Ok file, w') <->
  exists out prompt,
    cfg !! "output_path" = Some out /\ cfg !! "prompt" = Some prompt /\
    file = output_name out prompt /\ w' = w.
Proof.
  unfold output_file. split.
  - intros H. inv_run. eauto 6.
  - intros (out & prompt & Hout & Hprompt & -> & ->). run_ok. reflexivity.
Qed.

Lemma sample_loop_ok self x w self' decoded w' :
  sample_loop self x w = (Ok (self', decoded), w') <->
  exists xN w1 w2 first img out prompt,
    steps self (timesteps (scheduler self)) x w self' xN w1 /\
    decode_latent self' xN w1 = (Ok decoded, w2) /\
    tensor_get decoded 0 = Done first /\
    ToPILImage first = Done img /\
    config self !! "output_path" = Some out /\
    config self !! "prompt" = Some prompt /\
    w' = set_files (<[output_name out prompt := FImage (pil_of img)]> (files w2))
                   (set_trace (trace w2 ++ [EvWrite (output_name out prompt)]) w2).
Proof.
  unfold sample_loop. split.
  - intros H. inv_run. destruct x0 as [selfN xN]. simpl in *.
    apply denoise_loop_steps in H0.
    apply output_file_ok in H4 as (out & prompt & Hout & Hprompt & -> & ->).
    destruct (steps_invariant _ _ _ _ _ _ _ H0) as (Hcfg & _).
    rewrite Hcfg in Hout, Hprompt.
    exists xN, x1, x3, x4, x6, out, prompt. repeat split; assumption.
  - intros (xN & w1 & w2 & first & img & out & prompt
            & Hsteps & Hdec & Hget & Hpil & Hout & Hprompt & ->).
    destruct (steps_invariant _ _ _ _ _ _ _ Hsteps) as (Hcfg & _).
    apply denoise_loop_steps in Hsteps.
    apply bind_ok. eexists (_, _), _. split; [exact Hsteps |]. simpl.
    apply bind_ok. eexists _, _. split; [exact Hdec |].
    run_ok.
    apply bind_ok. eexists _, _. split.
    { apply output_file_ok. rewrite Hcfg. eauto 6. }
    apply bind_ok. eexists tt, _. split; [apply write_file_ok; reflexivity |].
    reflexivity.
Qed.

Lemma run_pnp_ok self w self' w' :
  run_pnp self w = (Ok self', w') <->
  exists n f a pf pa pnp_f_t pnp_attn_t decoded,
    config self !! "n_timesteps" = Some n /\
    config self !! "pnp_f_t" = Some f /\
    config self !! "pnp_attn_t" = Some a /\
    mul n f = Ok pf /\ int pf = Ok pnp_f_t /\
    mul n a = Ok pa /\ int pa = Ok pnp_attn_t /\
    sample_loop (init_pnp self pnp_f_t pnp_attn_t) (eps self) w = (Ok (self', decoded), w').
Proof.
  unfold run_pnp. split.
  - intros H. inv_run.
    match goal with
    | Hl : sample_loop _ _ _ = (Ok ?r, _) |- _ => destruct r as [selfN decoded]
    end.
    match goal with
    | Ha : config self !! "n_timesteps" = Some ?a,
      Hb : config self !! "n_timesteps" = Some ?b |- _ =>
        assert (b = a) by congruence; subst b
    end.
    do 8 eexists. repeat split; eassumption.
  - intros (n & f & a & pf & pa & kf & ka & decoded
            & Hn & Hf & Ha & Hpf & Hkf & Hpa & Hka & Hloop).
    run_ok. apply bind_ok. eexists (_, _), _. split; [exact Hloop |]. reflexivity.
Qed.

(** What a sampling loop that returned has left in the trace and in the
    files. *)
Lemma sample_loop_effects self x w self' decoded w' :
  sample_loop self x w = (Ok (self', decoded), w') ->
  exists xN out prompt first img,
    config self !! "output_path" = Some out /\
    config self !! "prompt" = Some prompt /\
    tensor_get decoded 0 = Done first /\ ToPILImage first = Done img /\
    trace w' = (trace w
                ++ map (unet_call (hook_attn (unet_hooks self)) (hook_conv (unet_hooks self)))
                       (timesteps (scheduler self))
                ++ [EvDecode xN; EvWrite (output_name out prompt)])%list /\
    files w' = <[output_name out prompt := FImage (pil_of img)]> (files w) /\
    dirs w' = dirs w /\
    config self' = config self /\
    qk_injection_timesteps self' = qk_injection_timesteps self /\
    conv_injection_timesteps self' = conv_injection_timesteps self.
Proof.
  intros H. apply sample_loop_ok in H
    as (xN & w1 & w2 & first & img & out & prompt
        & Hsteps & Hdec & Hget & Hpil & Hout & Hprompt & ->).
  apply steps_invariant in Hsteps
    as (Hcfg & _ & _ & Hqk & Hconv & _ & _ & Hfiles & Hdirs & _ & Htrace).
  apply decode_latent_ok in Hdec as (k & scaled & raw & g & _ & _ & _ & _ & ->).
  exists xN, out, prompt, first, img. simpl.
  rewrite Htrace, Hfiles, Hdirs, <- !app_assoc. repeat split; assumption.
Qed.


(** [C4] A denoising step returns exactly when the UNet prediction splits
    into three chunks, of which the first (the source branch) is not
    used; the guided prediction is
    [uncond + guidance_scale * (cond - uncond)], and the next latent is
    what [scheduler.step] returns for the guided prediction, the time
    step and the current latent. *)
Theorem denoise_step_guidance self x t w self' d w' :
  denoise_step self x t w = (Ok (self', d), w') <->
  exists lat ip src noise_pred g1 noise_pred_uncond noise_pred_cond guidance_scale scaled g2,
    config self !! "latents_path" = Some (PyStr lat) /\
    config self !! "image_path" = Some (PyStr ip) /\
    load_source_latents_t t (latents_dir_of lat ip) (pickles w) = Done src /\
    unet_forward (unet self) (unet_hooks (register_time self t))
                 (torch_cat [src; x; x]) t
                 (torch_cat [pnp_guidance_embeds self; text_embeds self]) (gen w)
      = (Done noise_pred, g1) /\
    (exists discarded,
        torch_chunk noise_pred 3 = [discarded; noise_pred_uncond; noise_pred_cond]) /\
    config self !! "guidance_scale" = Some guidance_scale /\
    tensor_rmul guidance_scale (tensor_sub noise_pred_cond noise_pred_uncond) = Done scaled /\
    scheduler_step (scheduler self) (tensor_add noise_pred_uncond scaled) t x g1
      = (Done d, g2) /\
    self' = register_time self t /\
    w' = set_gen g2 (set_trace (trace w ++ [EvUnet t (unet_hooks (register_time self t))]) w).
Proof.
  rewrite denoise_step_ok. split.
  - intros (lat & ip & src & np & g1 & s & u & c & scale & scaled & g2
            & Hlat & Hip & Hsrc & Hunet & Hchunk & Hscale & Hmul & Hstep & Hself & Hw).
    exists lat, ip, src, np, g1, u, c, scale, scaled, g2. repeat split; eauto.
  - intros (lat & ip & src & np & g1 & u & c & scale & scaled & g2
            & Hlat & Hip & Hsrc & Hunet & (s & Hchunk) & Hscale & Hmul & Hstep & Hself & Hw).
    exists lat, ip, src, np, g1, s, u, c, scale, scaled, g2. repeat split; eauto.
Qed.

(** [C2] With the horizons [pnp_f_t = int(n_timesteps * config["pnp_f_t"])]
    and [pnp_attn_t = int(n_timesteps * config["pnp_attn_t"])], [run_pnp] is
    the sampling loop on the object [init_pnp] prepared with them: its
    convolution injection time steps are the first [pnp_f_t] scheduler
    time steps, its attention injection time steps the first
    [pnp_attn_t], both are handed to the hooks, and every UNet call of
    the run is made with these two schedules registered. *)
Theorem run_pnp_injection self n f a pnp_f_t pnp_attn_t w :
  config self !! "n_timesteps" = Some n ->
  config self !! "pnp_f_t" = Some f ->
  config self !! "pnp_attn_t" = Some a ->
  rbind (mul n f) int = Ok pnp_f_t ->
  rbind (mul n a) int = Ok pnp_attn_t ->
  let ts := timesteps (scheduler self) in
  let conv := take (Z.to_nat pnp_f_t) ts in
  let qk := take (Z.to_nat pnp_attn_t) ts in
  let self0 := init_pnp self pnp_f_t pnp_attn_t in
  run_pnp self w = (let* r := sample_loop self0 (eps self) in ret (fst r)) w /\
  conv_injection_timesteps self0 = Some conv /\
  qk_injection_timesteps self0 = Some qk /\
  hook_conv (unet_hooks self0) = Some conv /\
  hook_attn (unet_hooks self0) = Some qk /\
  (forall self' w',
      run_pnp self w = (Ok self', w') ->
      conv_injection_timesteps self' = Some conv /\
      qk_injection_timesteps self' = Some qk /\
      exists xN file,
        trace w' = (trace w ++ map (unet_call (Some qk) (Some conv)) ts
                    ++ [EvDecode xN; EvWrite file])%list).
Proof.
  intros Hn Hf Ha Hkf Hka ts conv qk self0.
  destruct (mul n f) as [pf|] eqn:Hpf; [simpl in Hkf | discriminate].
  destruct (mul n a) as [pa|] eqn:Hpa; [simpl in Hka | discriminate].
  destruct (init_pnp_lists self pnp_f_t pnp_attn_t) as (Hc & Hq & Hhc & Hhq).
  rewrite !injection_list_take in Hc, Hq, Hhc, Hhq.
  assert (Hrun : run_pnp self w = (let* r := sample_loop self0 (eps self) in ret (fst r)) w).
  { unfold run_pnp.
    rewrite (bind_step _ _ _ _ _ (getitem_some _ _ _ _ Hn)).
    rewrite (bind_step _ _ _ _ _ (getitem_some _ _ _ _ Hf)).
    rewrite (bind_step (lift_result (mul n f)) _ w pf w)
      by (apply lift_result_ok; auto).
    rewrite (bind_step (lift_result (int pf)) _ w pnp_f_t w)
      by (apply lift_result_ok; auto).
    rewrite (bind_step _ _ _ _ _ (getitem_some _ _ _ _ Hn)).
    rewrite (bind_step _ _ _ _ _ (getitem_some _ _ _ _ Ha)).
    rewrite (bind_step (lift_result (mul n a)) _ w pa w)
      by (apply lift_result_ok; auto).
    rewrite (bind_step (lift_result (int pa)) _ w pnp_attn_t w)
      by (apply lift_result_ok; auto).
    reflexivity. }
  repeat split; try assumption.
  - rewrite Hrun in H. apply bind_ok in H as ([s1 dec] & w1 & Hloop & Hret).
    apply ret_ok in Hret as [-> ->].
    apply sample_loop_effects in Hloop
      as (xN & out & prompt & first & img & _ & _ & _ & _ & _ & _ & _ & _ & _ & Hconv).
    simpl. rewrite Hconv. exact Hc.
  - rewrite Hrun in H. apply bind_ok in H as ([s1 dec] & w1 & Hloop & Hret).
    apply ret_ok in Hret as [-> ->].
    apply sample_loop_effects in Hloop
      as (xN & out & prompt & first & img & _ & _ & _ & _ & _ & _ & _ & _ & Hqk & _).
    simpl. rewrite Hqk. exact Hq.
  - rewrite Hrun in H. apply bind_ok in H as ([s1 dec] & w1 & Hloop & Hret).
    apply ret_ok in Hret as [-> ->].
    apply sample_loop_effects in Hloop
      as (xN & out & prompt & first & img & _ & _ & _ & _ & Htr & _).
    exists xN, (output_name out prompt).
    fold self0 in Hhc, Hhq. rewrite Hhc, Hhq in Htr. exact Htr.
Qed.

(** *** Loading the data *)

Lemma get_data_ok cfg dev sch image noisy w w' :
  get_data cfg dev sch w = (Ok (image, noisy), w') <->
  exists ip raw rgb lat t0 loaded,
    cfg !! "image_path" = Some (PyStr ip) /\
    files w !! ip = Some (FImage raw) /\
    convert_pixels (im_mode raw) "RGB" (im_data raw) = Done rgb /\
    tensor_to (ToTensor (im_mode (prepared_image raw rgb)) (im_size (prepared_image raw rgb))
                        (im_data (prepared_image raw rgb))) dev = Done image /\
    cfg !! "latents_path" = Some (PyStr lat) /\
    timesteps sch !! 0%nat = Some t0 /\
    files w !! OsPath.join lat [stem_of ip; noisy_latents_name t0] = Some (FPickle loaded) /\
    tensor_to loaded dev = Done noisy /\
    w' = set_trace (trace w ++ [EvRead ip;
                                EvRead (OsPath.join lat [stem_of ip; noisy_latents_name t0])]) w.
Proof.
  unfold get_data. split.
  - intros H. inv_run.
    match goal with
    | Ha : cfg !! "image_path" = Some (PyStr ?a),
      Hb : cfg !! "image_path" = Some (PyStr ?b) |- _ =>
        assert (b = a) by congruence; subst b
    end.
    match goal with
    | Hi : index _ 0 = Ok ?t |- _ =>
        unfold index in Hi; destruct (timesteps sch !! 0%nat) as [t0|] eqn:Ht0;
        [injection Hi as -> | discriminate Hi]
    end.
    do 6 eexists. repeat split; try eassumption.
    simpl. rewrite <- app_assoc. reflexivity.
  - intros (ip & raw & rgb & lat & t0 & loaded
            & Hip & Hraw & Hrgb & Himg & Hlat & Ht0 & Hfile & Hdev & ->).
    assert (Hidx : index (timesteps sch) 0 = Ok t0) by (unfold index; rewrite Ht0; auto).
    run_ok. simpl. rewrite <- app_assoc. reflexivity.
Qed.

(** *** The constructor *)

Lemma PNP_init_ok cfg w self w' :
  PNP_init cfg w = (Ok self, w') ->
  exists dev v n prompt negative_prompt w0 w1,
    cfg !! "device" = Some dev /\
    cfg !! "sd_version" = Some v /\
    v ∈ supported_versions /\
    cfg !! "n_timesteps" = Some n /\
    cfg !! "prompt" = Some prompt /\
    cfg !! "negative_prompt" = Some negative_prompt /\
    config self = cfg /\ device self = dev /\
    get_data cfg dev (scheduler self) w0 = (Ok (image self, eps self), w1) /\
    files w0 = files w /\ files w' = files w /\ dirs w' = dirs w /\
    checkpoints w' = checkpoints w.
Proof.
  unfold PNP_init. intros H. inv_run.
  all: match goal with
       | Hg : get_data _ _ _ _ = (Ok ?r, _) |- _ =>
           destruct r as [img0 eps0];
           destruct (proj1 (get_data_ok _ _ _ _ _ _ _) Hg)
             as (? & ? & ? & ? & ? & ? & _ & _ & _ & _ & _ & _ & _ & _ & Hw1)
       end.
  all: do 7 eexists; repeat match goal with |- _ /\ _ => split end;
    try eassumption; try reflexivity; try (rewrite Hw1; reflexivity).
  all: match goal with
       | He : eq_str ?v _ = true |- ?v ∈ _ =>
           apply eq_str_true in He; subst v; unfold supported_versions; set_solver
       end.
Qed.

(** *** Where the latents come from *)

Lemma join_nested a b c : OsPath.join a [b; c] = OsPath.join (OsPath.join a [b]) [c].
Proof. reflexivity. Qed.

(** A relative name joined to a directory is a child of the directory. *)
Lemma join_child dir name :
  OsPath.startswith_sep name = false ->
  OsPath.join dir [name] = dir +:+ "/" +:+ name \/ OsPath.join dir [name] = dir +:+ name.
Proof.
  intros Hrel. unfold OsPath.join. simpl. unfold OsPath.join2. rewrite Hrel.
  destruct (String.eqb dir EmptyString || OsPath.endswith_sep dir)%bool; auto.
Qed.

Lemma steps_load_sources self ts x w self' x' w' lat ip :
  steps self ts x w self' x' w' ->
  config self !! "latents_path" = Some (PyStr lat) ->
  config self !! "image_path" = Some (PyStr ip) ->
  Forall (fun t => exists src,
              load_source_latents_t t (latents_dir_of lat ip) (pickles w) = Done src) ts.
Proof.
  induction 1 as [self x w | self t ts x w self1 x1 w1 self' x' w' Hstep Hsteps IH];
    intros Hlat Hip; constructor.
  - apply denoise_step_ok in Hstep
      as (lat' & ip' & src & np & g1 & s & u & c & scale & scaled & g2
          & Hlat' & Hip' & Hsrc & _).
    assert (lat' = lat) by congruence. assert (ip' = ip) by congruence. subst. eauto.
  - apply denoise_step_ok in Hstep
      as (lat' & ip' & src & np & g1 & s & u & c & scale & scaled & g2
          & _ & _ & _ & _ & _ & _ & _ & _ & -> & ->).
    apply IH; assumption.
Qed.

(** [C3] The initial latent is the tensor stored in
    [noisy_latents_{t0}.pt], [t0] the first scheduler time step, a child
    of the directory [latents_path/<stem of the image file name>] (moved
    to the device); a denoising step at [t] asks the latent loader for
    [t] in that same directory and calls the UNet on the concatenation
    of the source latents and two copies of the current latent; and so
    does every step of a run of steps. *)
Theorem latents_from_disk :
  (forall cfg w self w',
      PNP_init cfg w = (Ok self, w') ->
      exists lat ip t0 loaded,
        cfg !! "latents_path" = Some (PyStr lat) /\
        cfg !! "image_path" = Some (PyStr ip) /\
        timesteps (scheduler self) !! 0%nat = Some t0 /\
        let dir := latents_dir_of lat ip in
        let file := OsPath.join dir [noisy_latents_name t0] in
        (file = dir +:+ "/" +:+ noisy_latents_name t0 \/ file = dir +:+ noisy_latents_name t0) /\
        files w !! file = Some (FPickle loaded) /\
        tensor_to loaded (device self) = Done (eps self)) /\
  (forall self x t w self' d w',
      denoise_step self x t w = (Ok (self', d), w') ->
      exists lat ip src noise_pred g,
        config self !! "latents_path" = Some (PyStr lat) /\
        config self !! "image_path" = Some (PyStr ip) /\
        load_source_latents_t t (latents_dir_of lat ip) (pickles w) = Done src /\
        torch_cat ([src] ++ replicate 2 x) = torch_cat [src; x; x] /\
        unet_forward (unet self) (unet_hooks self') (torch_cat [src; x; x]) t
                     (torch_cat [pnp_guidance_embeds self; text_embeds self]) (gen w)
          = (Done noise_pred, g)) /\
  (forall self ts x w self' x' w' lat ip,
      steps self ts x w self' x' w' ->
      config self !! "latents_path" = Some (PyStr lat) ->
      config self !! "image_path" = Some (PyStr ip) ->
      Forall (fun t => exists src,
                  load_source_latents_t t (latents_dir_of lat ip) (pickles w) = Done src) ts).
Proof.
  split; [| split].
  - intros cfg w self w' Hinit.
    apply PNP_init_ok in Hinit
      as (dev & v & n & prompt & neg & w0 & w1 & _ & _ & _ & _ & _ & _ & _ & Hdev
          & Hdata & Hfiles & _).
    apply get_data_ok in Hdata
      as (ip & raw & rgb & lat & t0 & loaded & Hip & _ & _ & _ & Hlat & Ht0 & Hfile & Hto & _).
    exists lat, ip, t0, loaded. rewrite Hfiles in Hfile. rewrite Hdev.
    repeat split; try assumption.
    apply join_child. reflexivity.
  - intros self x t w self' d w' Hstep.
    apply denoise_step_ok in Hstep
      as (lat & ip & src & np & g1 & s & u & c & scale & scaled & g2
          & Hlat & Hip & Hsrc & Hunet & _ & _ & _ & _ & -> & _).
    exists lat, ip, src, np, g1. repeat split; assumption.
  - intros. eapply steps_load_sources; eassumption.
Qed.

(** [C8] Whatever the mode and the size of the image stored at
    [image_path], [get_data] converts it to RGB, resizes the result to
    512x512 with LANCZOS resampling and only then turns it into a tensor
    and moves that to the device; in the constructor the device is
    [config["device"]]. *)
Theorem get_data_image :
  (forall cfg dev sch w ip raw rgb image lat t0 loaded noisy,
      cfg !! "image_path" = Some (PyStr ip) ->
      files w !! ip = Some (FImage raw) ->
      convert_pixels (im_mode raw) "RGB" (im_data raw) = Done rgb ->
      tensor_to (ToTensor "RGB" (512, 512)
                          (resize_pixels (im_size raw) (512, 512) LANCZOS rgb)) dev
        = Done image ->
      cfg !! "latents_path" = Some (PyStr lat) ->
      timesteps sch !! 0%nat = Some t0 ->
      files w !! OsPath.join lat [stem_of ip; noisy_latents_name t0] = Some (FPickle loaded) ->
      tensor_to loaded dev = Done noisy ->
      fst (get_data cfg dev sch w) = Ok (image, noisy)) /\
  (forall cfg dev sch w image noisy w',
      get_data cfg dev sch w = (Ok (image, noisy), w') ->
      exists ip raw rgb,
        cfg !! "image_path" = Some (PyStr ip) /\
        files w !! ip = Some (FImage raw) /\
        convert_pixels (im_mode raw) "RGB" (im_data raw) = Done rgb /\
        im_mode (prepared_image raw rgb) = "RGB" /\
        im_size (prepared_image raw rgb) = (512, 512) /\
        im_data (prepared_image raw rgb)
          = resize_pixels (im_size raw) (512, 512) LANCZOS rgb /\
        tensor_to (ToTensor "RGB" (512, 512) (im_data (prepared_image raw rgb))) dev
          = Done image) /\
  (forall cfg w self w',
      PNP_init cfg w = (Ok self, w') ->
      exists ip raw rgb,
        cfg !! "device" = Some (device self) /\
        cfg !! "image_path" = Some (PyStr ip) /\
        files w !! ip = Some (FImage raw) /\
        convert_pixels (im_mode raw) "RGB" (im_data raw) = Done rgb /\
        tensor_to (ToTensor "RGB" (512, 512)
                            (resize_pixels (im_size raw) (512, 512) LANCZOS rgb))
                  (device self)
          = Done (image self)).
Proof.
  split; [| split].
  - intros cfg dev sch w ip raw rgb image lat t0 loaded noisy
           Hip Hraw Hrgb Himg Hlat Ht0 Hfile Hto.
    destruct (get_data cfg dev sch w) as [r w'] eqn:Hrun. simpl.
    assert (Hok : get_data cfg dev sch w
                  = (Ok (image, noisy),
                     set_trace (trace w ++ [EvRead ip;
                        EvRead (OsPath.join lat [stem_of ip; noisy_latents_name t0])]) w)).
    { apply get_data_ok. exists ip, raw, rgb, lat, t0, loaded. repeat split; assumption. }
    congruence.
  - intros cfg dev sch w image noisy w' Hdata.
    apply get_data_ok in Hdata
      as (ip & raw & rgb & lat & t0 & loaded & Hip & Hraw & Hrgb & Himg & _).
    exists ip, raw, rgb. repeat split; assumption.
  - intros cfg w self w' Hinit.
    apply PNP_init_ok in Hinit
      as (dev & v & n & prompt & neg & w0 & w1 & Hd & _ & _ & _ & _ & _ & _ & Hdev
          & Hdata & Hfiles & _).
    apply get_data_ok in Hdata
      as (ip & raw & rgb & lat & t0 & loaded & Hip & Hraw & Hrgb & Himg & _).
    exists ip, raw, rgb. rewrite Hfiles in Hraw. rewrite Hdev.
    repeat split; assumption.
Qed.

(** *** What a run leaves on disk *)

Lemma reads_only_bind {A B} (m : M world A) (k : A -> M world B) :
  reads_only m -> (forall a, reads_only (k a)) -> reads_only (bind m k).
Proof.
  intros Hm Hk w. specialize (Hm w). unfold bind.
  destruct (m w) as [[a|e] w1]; simpl in *; [| exact Hm].
  destruct Hm as (Hf & Hd & Hc & Ht). destruct (Hk a w1) as (Hf' & Hd' & Hc' & Ht').
  rewrite Hf', Hd', Hc'. repeat split; try assumption. etrans; eassumption.
Qed.

Ltac same_disk_solve :=
  simpl; repeat split; first [reflexivity | apply prefix_app_r; reflexivity].

Lemma reads_only_pure {A} (r : result A) : reads_only (fun w => (r, w)).
Proof. intros w. same_disk_solve. Qed.

Lemma reads_only_ret {A} (a : A) : reads_only (ret a).
Proof. apply reads_only_pure. Qed.

Lemma reads_only_raise {A} e : reads_only (@raise world A e).
Proof. apply reads_only_pure. Qed.

Lemma reads_only_lift_result {A} (r : result A) : reads_only (lift_result r).
Proof. apply reads_only_pure. Qed.

Lemma reads_only_lift_outcome {A} (o : outcome A) : reads_only (lift_outcome o).
Proof. intros w. unfold lift_outcome. destruct o; same_disk_solve. Qed.

Lemma reads_only_lift_stoch {A} (f : stoch generator A) : reads_only (lift_stoch f).
Proof.
  intros w. unfold lift_stoch. destruct (f (gen w)) as [[a|what] g]; same_disk_solve.
Qed.

Lemma reads_only_emit e : reads_only (emit e).
Proof. intros w. same_disk_solve. Qed.

Lemma reads_only_getitem cfg k : reads_only (getitem cfg k).
Proof. unfold getitem. destruct (cfg !! k); apply reads_only_pure. Qed.

Lemma reads_only_get_checkpoints : reads_only get_checkpoints.
Proof. intros w. same_disk_solve. Qed.

Lemma reads_only_read_file p : reads_only (read_file p).
Proof.
  apply reads_only_bind; [apply reads_only_emit | intros _].
  intros w. destruct (files w !! p); same_disk_solve.
Qed.

Ltac reads_only_step :=
  first
    [ apply reads_only_ret | apply reads_only_raise | apply reads_only_getitem
    | apply reads_only_lift_result | apply reads_only_lift_outcome
    | apply reads_only_lift_stoch | apply reads_only_emit
    | apply reads_only_get_checkpoints | apply reads_only_read_file
    | apply reads_only_bind; [| intros ?]
    | match goal with
      | |- reads_only (match ?c with FText _ => _ | FPickle _ => _ | FImage _ => _ end) =>
          destruct c
      | |- reads_only (if ?b then _ else _) => destruct b
      end ].

Lemma reads_only_get_text_embeds_xl p a b n : reads_only (get_text_embeds_xl p a b n).
Proof.
  unfold get_text_embeds_xl.
  apply reads_only_bind; [apply reads_only_lift_stoch | intros [[[? ?] ?] ?]].
  apply reads_only_ret.
Qed.

Lemma reads_only_get_data cfg dev sch : reads_only (get_data cfg dev sch).
Proof.
  unfold get_data, image_stem, Image_open, torch_load, convert. repeat reads_only_step.
Qed.

Lemma reads_only_PNP_init cfg : reads_only (PNP_init cfg).
Proof.
  unfold PNP_init, print.
  repeat first [apply reads_only_get_data | apply reads_only_get_text_embeds_xl
               | reads_only_step].
Qed.

Lemma reads_only_denoise_step self x t : reads_only (denoise_step self x t).
Proof.
  unfold denoise_step, image_stem. repeat reads_only_step.
  - intros w. unfold lift_outcome.
    destruct (load_source_latents_t _ _ _); same_disk_solve.
  - destruct (torch_chunk _ 3) as [|s [|u [|c [|]]]]; repeat reads_only_step.
Qed.

Lemma reads_only_denoise_loop self ts x : reads_only (denoise_loop self ts x).
Proof.
  revert self x. induction ts as [|t ts IH]; intros self x; simpl.
  - apply reads_only_ret.
  - apply reads_only_bind; [apply reads_only_denoise_step | intros r; apply IH].
Qed.

Lemma reads_only_decode_latent self latent : reads_only (decode_latent self latent).
Proof. unfold decode_latent. repeat reads_only_step. Qed.












Lemma main_prelude argv w cfg out :
  loads_config argv w cfg out ->
  files w !! out = None ->
  main argv w = run_config cfg (after_prelude argv cfg out w).
Proof.
  intros (text & Htext & Hyaml & Hout) Hfree. unfold main.
  fold (config_path_of argv).
  rewrite (bind_step (read_text (config_path_of argv)) _ w text
             (set_trace (trace w ++ [EvRead (config_path_of argv)]) w))
    by (apply read_text_ok; auto).
  rewrite (bind_step (lift_outcome (yaml_safe_load text)) _ _ cfg
             (set_trace (trace w ++ [EvRead (config_path_of argv)]) w))
    by (apply lift_outcome_ok; auto).
  rewrite (bind_step (getitem cfg "output_path") _ _ (PyStr out)
             (set_trace (trace w ++ [EvRead (config_path_of argv)]) w))
    by (apply getitem_some; exact Hout).
  rewrite (bind_step (lift_result (as_path (PyStr out))) _ _ out
             (set_trace (trace w ++ [EvRead (config_path_of argv)]) w))
    by (apply lift_result_ok; auto).
  rewrite (bind_step (makedirs out) _ _ tt _
             (proj2 (makedirs_ok out tt
                       (set_trace (trace w ++ [EvRead (config_path_of argv)]) w) _)
                    (conj Hfree eq_refl))).
  rewrite (bind_step (write_file _ _) _ _ tt _ (proj2 (write_file_ok _ _ tt _ _) eq_refl)).
  unfold run_config, after_prelude, config_copy. simpl. rewrite <- !app_assoc. reflexivity.
Qed.


Lemma loads_config_output cfg argv w out out' :
  loads_config argv w cfg out -> cfg !! "output_path" = Some out' -> out' = PyStr out.
Proof. intros (text & _ & _ & Hout) Hout'. congruence. Qed.


(** *** File names *)












(** *** The whole run *)

Lemma main_ok argv w self w' :
  main argv w = (Ok self, w') ->
  exists cfg out,
    loads_config argv w cfg out /\ files w !! out = None /\
    run_config cfg (after_prelude argv cfg out w) = (Ok self, w').
Proof.
  intros H. pose proof H as H0. unfold main in H0. fold (config_path_of argv) in H0. inv_run.
  match goal with
  | Ht : files w !! config_path_of argv = Some (FText ?text),
    Hy : yaml_safe_load ?text = Done ?cfg,
    Ho : ?cfg !! "output_path" = Some (PyStr ?out) |- _ =>
      assert (Hload : loads_config argv w cfg out) by (exists text; auto);
      exists cfg, out
  end.
  repeat split; try assumption.
  erewrite <- main_prelude; eassumption.
Qed.


Lemma loads_config_inj argv w cfg out cfg' out' :
  loads_config argv w cfg out -> loads_config argv w cfg' out' -> cfg' = cfg /\ out' = out.
Proof.
  intros (text & Ht & Hy & Ho) (text' & Ht' & Hy' & Ho').
  assert (text' = text) by congruence. subst.
  assert (cfg' = cfg) by congruence. subst. split; congruence.
Qed.




(** *** Independence of the generator state *)












(** ** Further properties of the script *)

(** *** Failures of the [__main__] block *)

Lemma read_text_missing p w :
  files w !! p = None ->
  read_text p w = (Raise (FileNotFoundError p), set_trace (trace w ++ [EvRead p]) w).
Proof.
  intros H. unfold read_text. apply bind_fail.
  unfold read_file, bind, emit. simpl. rewrite H. reflexivity.
Qed.

(** [X1] When the file named by [--config_path] does not exist the run
    stops with [FileNotFoundError] for that path; no directory is made
    and no file written, the attempt to read is all that happened. *)
Theorem main_config_file_missing argv w :
  files w !! config_path_of argv = None ->
  main argv w = (Raise (FileNotFoundError (config_path_of argv)),
                 set_trace (trace w ++ [EvRead (config_path_of argv)]) w).
Proof.
  intros H. unfold main. fold (config_path_of argv).
  apply bind_fail, read_text_missing, H.
Qed.

(** [X2] A configuration without the key [output_path] stops the run with
    [KeyError('output_path')] before anything is created: files and
    directories are as they were. *)
Theorem main_output_path_missing argv w text cfg :
  files w !! config_path_of argv = Some (FText text) ->
  yaml_safe_load text = Done cfg ->
  cfg !! "output_path" = None ->
  fst (main argv w) = Raise (KeyError "output_path") /\
  files (snd (main argv w)) = files w /\
  dirs (snd (main argv w)) = dirs w.
Proof.
  intros Htext Hyaml Hout. unfold main. fold (config_path_of argv).
  rewrite (bind_step (read_text (config_path_of argv)) _ w text
             (set_trace (trace w ++ [EvRead (config_path_of argv)]) w))
    by (apply read_text_ok; auto).
  rewrite (bind_step (lift_outcome (yaml_safe_load text)) _ _ cfg
             (set_trace (trace w ++ [EvRead (config_path_of argv)]) w))
    by (apply lift_outcome_ok; auto).
  rewrite (bind_fail (getitem cfg "output_path") _ _ (KeyError "output_path")
             (set_trace (trace w ++ [EvRead (config_path_of argv)]) w))
    by (unfold getitem; rewrite Hout; reflexivity).
  repeat split.
Qed.

(** [X3] When a file already sits at [output_path], [os.makedirs] raises
    [FileExistsError]; the copy of the configuration is not written and
    no file changes. *)
Theorem main_output_path_is_file argv w cfg out c :
  loads_config argv w cfg out ->
  files w !! out = Some c ->
  fst (main argv w) = Raise (FileExistsError out) /\
  files (snd (main argv w)) = files w /\
  dirs (snd (main argv w)) = dirs w.
Proof.
  intros (text & Htext & Hyaml & Hout) Hfile. unfold main. fold (config_path_of argv).
  rewrite (bind_step (read_text (config_path_of argv)) _ w text
             (set_trace (trace w ++ [EvRead (config_path_of argv)]) w))
    by (apply read_text_ok; auto).
  rewrite (bind_step (lift_outcome (yaml_safe_load text)) _ _ cfg
             (set_trace (trace w ++ [EvRead (config_path_of argv)]) w))
    by (apply lift_outcome_ok; auto).
  rewrite (bind_step (getitem cfg "output_path") _ _ (PyStr out)
             (set_trace (trace w ++ [EvRead (config_path_of argv)]) w))
    by (apply getitem_some; exact Hout).
  rewrite (bind_step (lift_result (as_path (PyStr out))) _ _ out
             (set_trace (trace w ++ [EvRead (config_path_of argv)]) w))
    by (apply lift_result_ok; auto).
  rewrite (bind_fail (makedirs out) _ _ (FileExistsError out)
             (set_trace (trace w ++ [EvRead (config_path_of argv); EvMakedirs out]) w)).
  - repeat split.
  - unfold makedirs, bind, emit. simpl. rewrite Hfile. simpl.
    rewrite <- app_assoc. reflexivity.
Qed.


(** *** Failures and invariants of the constructor *)

(** [X5] The configuration is looked up before the version is checked:
    without the key [device] the constructor raises [KeyError('device')]
    whatever [sd_version] is, and with [device] but without [sd_version]
    it raises [KeyError('sd_version')]; in both cases nothing has
    happened yet. *)
Theorem PNP_init_missing_keys cfg w :
  (cfg !! "device" = None -> PNP_init cfg w = (Raise (KeyError "device"), w)) /\
  (forall dev, cfg !! "device" = Some dev -> cfg !! "sd_version" = None ->
               PNP_init cfg w = (Raise (KeyError "sd_version"), w)).
Proof.
  split.
  - intros H. unfold PNP_init. apply bind_fail. unfold getitem. rewrite H. reflexivity.
  - intros dev Hdev H. unfold PNP_init.
    rewrite (bind_step _ _ _ _ _ (getitem_some _ _ _ _ Hdev)).
    apply bind_fail. unfold getitem. rewrite H. reflexivity.
Qed.

Lemma not_supported_eq_str v :
  v ∉ supported_versions ->
  eq_str v "2.1" = false /\ eq_str v "2.0" = false /\
  eq_str v "1.5" = false /\ eq_str v "xl-base" = false.
Proof.
  intros Hnot. unfold supported_versions in Hnot.
  repeat split; apply not_true_is_false; intros E; apply eq_str_true in E; subst v;
    apply Hnot; set_solver.
Qed.

(** [X6] The [ValueError] of the constructor names the rejected version:
    its message is 'Stable-diffusion version {sd_version} not
    supported.'.  A version that is not a string (a YAML number such as
    an unquoted 2.1, a boolean, null) is always rejected. *)
Theorem PNP_init_unsupported_message cfg dev v w :
  cfg !! "device" = Some dev ->
  cfg !! "sd_version" = Some v ->
  (v ∉ supported_versions ->
   PNP_init cfg w
   = (Raise (ValueError ("Stable-diffusion version " +:+ format v +:+ " not supported.")),
      w)) /\
  ((forall s, v <> PyStr s) -> v ∉ supported_versions).
Proof.
  intros Hdev Hv. split.
  - intros Hnot. destruct (not_supported_eq_str v Hnot) as (E1 & E2 & E3 & E4).
    unfold PNP_init.
    rewrite (bind_step _ _ _ _ _ (getitem_some _ _ _ _ Hdev)).
    rewrite (bind_step _ _ _ _ _ (getitem_some _ _ _ _ Hv)).
    apply bind_fail. rewrite E1, E2, E3, E4. reflexivity.
  - intros Hns Hin. unfold supported_versions in Hin.
    repeat (apply elem_of_cons in Hin as [Hin | Hin]; [exact (Hns _ Hin) |]).
    apply elem_of_nil in Hin. exact Hin.
Qed.

(** [X7] An object the constructor returns has at least one scheduler
    time step (the first one named the latent file), holds the
    configuration it was given, takes its VAE and UNet from the
    pipeline, and has no injection schedule yet: the lists are unset
    and the hooks empty until [init_pnp] runs. *)
Theorem PNP_init_fresh cfg w self w' :
  PNP_init cfg w = (Ok self, w') ->
  timesteps (scheduler self) <> [] /\
  config self = cfg /\
  vae self = pipe_vae (pipe self) /\ unet self = pipe_unet (pipe self) /\
  qk_injection_timesteps self = None /\ conv_injection_timesteps self = None /\
  unet_hooks self = {| hook_t := None; hook_attn := None; hook_conv := None |}.
Proof.
  intros Hinit. pose proof Hinit as Hok.
  apply PNP_init_ok in Hok
    as (dev & v & n & prompt & neg & w0 & w1 & _ & _ & _ & _ & _ & _ & Hcfg & _ & Hdata & _).
  apply get_data_ok in Hdata
    as (ip & raw & rgb & lat & t0 & loaded & _ & _ & _ & _ & _ & Ht0 & _).
  split; [intros E; rewrite E in Ht0; discriminate Ht0 |].
  split; [exact Hcfg |].
  unfold PNP_init in Hinit. inv_run; repeat split.
Qed.

Lemma writes_of_app t1 t2 : writes_of (t1 ++ t2) = (writes_of t1 ++ writes_of t2)%list.
Proof. apply List.filter_app. Qed.

Lemma adds_no_write_bind {A B} (m : M world A) (k : A -> M world B) :
  adds_no_write m -> (forall a, adds_no_write (k a)) -> adds_no_write (bind m k).
Proof.
  intros Hm Hk w. specialize (Hm w). unfold bind.
  destruct (m w) as [[a|e] w1]; simpl in *; [| exact Hm].
  rewrite Hk. exact Hm.
Qed.

Lemma adds_no_write_same {A} (m : M world A) :
  (forall w, trace (snd (m w)) = trace w) -> adds_no_write m.
Proof. intros H w. rewrite H. reflexivity. Qed.

Lemma adds_no_write_emit e : is_write e = false -> adds_no_write (emit e).
Proof.
  intros He w. simpl. rewrite writes_of_app. simpl. rewrite He. apply app_nil_r.
Qed.

Lemma adds_no_write_getitem cfg k : adds_no_write (getitem cfg k).
Proof. apply adds_no_write_same. intros w. unfold getitem. destruct (cfg !! k); reflexivity. Qed.

Lemma adds_no_write_lift_result {A} (r : result A) : adds_no_write (lift_result r).
Proof. apply adds_no_write_same. reflexivity. Qed.

Lemma adds_no_write_ret {A} (a : A) : adds_no_write (ret a).
Proof. apply adds_no_write_same. reflexivity. Qed.

Lemma adds_no_write_raise {A} e : adds_no_write (@raise world A e).
Proof. apply adds_no_write_same. reflexivity. Qed.

Lemma adds_no_write_lift_outcome {A} (o : outcome A) : adds_no_write (lift_outcome o).
Proof. apply adds_no_write_same. intros w. unfold lift_outcome. destruct o; reflexivity. Qed.

Lemma adds_no_write_lift_stoch {A} (f : stoch generator A) : adds_no_write (lift_stoch f).
Proof.
  apply adds_no_write_same. intros w. unfold lift_stoch.
  destruct (f (gen w)) as [[a|what] g]; reflexivity.
Qed.

Lemma adds_no_write_get_checkpoints : adds_no_write get_checkpoints.
Proof. apply adds_no_write_same. reflexivity. Qed.

Lemma adds_no_write_read_file p : adds_no_write (read_file p).
Proof.
  apply adds_no_write_bind; [apply adds_no_write_emit; reflexivity | intros _].
  apply adds_no_write_same. intros w. destruct (files w !! p); reflexivity.
Qed.

Ltac adds_no_write_step :=
  first
    [ apply adds_no_write_ret | apply adds_no_write_raise | apply adds_no_write_getitem
    | apply adds_no_write_lift_result | apply adds_no_write_lift_outcome
    | apply adds_no_write_lift_stoch | apply adds_no_write_get_checkpoints
    | apply adds_no_write_read_file
    | apply adds_no_write_emit; reflexivity
    | apply adds_no_write_bind; [| intros ?]
    | match goal with
      | |- adds_no_write (match ?c with FText _ => _ | FPickle _ => _ | FImage _ => _ end) =>
          destruct c
      | |- adds_no_write (if ?b then _ else _) => destruct b
      end ].

Lemma adds_no_write_get_text_embeds_xl p a b n :
  adds_no_write (get_text_embeds_xl p a b n).
Proof.
  unfold get_text_embeds_xl.
  apply adds_no_write_bind; [apply adds_no_write_lift_stoch | intros [[[? ?] ?] ?]].
  apply adds_no_write_ret.
Qed.

Lemma adds_no_write_get_data cfg dev sch : adds_no_write (get_data cfg dev sch).
Proof.
  unfold get_data, image_stem, Image_open, torch_load, convert.
  repeat adds_no_write_step.
Qed.

Lemma adds_no_write_PNP_init cfg : adds_no_write (PNP_init cfg).
Proof.
  unfold PNP_init, print.
  repeat first [apply adds_no_write_get_data | apply adds_no_write_get_text_embeds_xl
               | adds_no_write_step].
Qed.

(** [X8] The constructor only reads: whether it returns or raises, the
    files, the directories and the checkpoints are as before, and what
    it adds to the trace holds no write and no [makedirs]. *)
Theorem PNP_init_read_only cfg w :
  files (snd (PNP_init cfg w)) = files w /\
  dirs (snd (PNP_init cfg w)) = dirs w /\
  checkpoints (snd (PNP_init cfg w)) = checkpoints w /\
  trace w `prefix_of` trace (snd (PNP_init cfg w)) /\
  writes_of (trace (snd (PNP_init cfg w))) = writes_of (trace w).
Proof.
  destruct (reads_only_PNP_init cfg w) as (Hfiles & Hdirs & Hcheck & Htrace).
  repeat split; try assumption. apply adds_no_write_PNP_init.
Qed.

Lemma writes_of_unet_calls qk conv ts : writes_of (map (unet_call qk conv) ts) = [].
Proof. induction ts as [|t ts IH]; simpl; [reflexivity | exact IH]. Qed.

Lemma adds_no_write_seed_everything seed : adds_no_write (seed_everything seed).
Proof.
  unfold seed_everything.
  apply adds_no_write_bind; [apply adds_no_write_emit; reflexivity | intros _].
  apply adds_no_write_bind; [apply adds_no_write_lift_outcome | intros g].
  apply adds_no_write_same. reflexivity.
Qed.

(** [X9] A run that completes has changed the disk exactly three times,
    in this order: it made the output directory, wrote [config.yaml]
    into it, and at the very end saved the output image. *)
Theorem main_three_writes argv w self w' :
  main argv w = (Ok self, w') ->
  exists cfg out prompt,
    loads_config argv w cfg out /\ cfg !! "prompt" = Some prompt /\
    writes_of (trace w')
    = (writes_of (trace w)
       ++ [EvMakedirs out; EvWrite (config_copy out);
           EvWrite (output_name (PyStr out) prompt)])%list /\
    last (trace w') = Some (EvWrite (output_name (PyStr out) prompt)).
Proof.
  intros Hmain. apply main_ok in Hmain as (cfg & out & Hload & Hfree & Hrun).
  unfold run_config in Hrun.
  apply bind_ok in Hrun as (seed & w1 & Hseed & Hrun).
  apply getitem_ok in Hseed as [Hseed ->].
  apply bind_ok in Hrun as ([] & w2 & Hse & Hrun).
  apply bind_ok in Hrun as ([] & w3 & Hprint & Hrun).
  apply bind_ok in Hrun as (pnp & w4 & Hinit & Hrun).
  pose proof (adds_no_write_seed_everything seed (after_prelude argv cfg out w)) as Hw2.
  rewrite Hse in Hw2. simpl in Hw2.
  pose proof (adds_no_write_emit (EvPrint (PConfig cfg)) eq_refl w2) as Hw3.
  unfold print in Hprint. rewrite Hprint in Hw3. simpl in Hw3.
  pose proof (adds_no_write_PNP_init cfg w3) as Hw4. rewrite Hinit in Hw4. simpl in Hw4.
  apply PNP_init_ok in Hinit
    as (dev & v & n & prompt & neg & w0 & w1' & _ & _ & _ & _ & Hprompt & _ & Hcfg & _).
  apply run_pnp_ok in Hrun
    as (n' & f & a & pf & pa & kf & ka & decoded & _ & _ & _ & _ & _ & _ & _ & Hloop).
  apply sample_loop_effects in Hloop
    as (xN & out' & prompt' & first & img & Hout' & Hprompt' & _ & _ & Htrace & _).
  simpl in Hout', Hprompt'. rewrite Hcfg in Hout', Hprompt'.
  rewrite (loads_config_output _ _ _ _ _ Hload Hout') in Htrace.
  assert (prompt' = prompt) by congruence. subst prompt'.
  exists cfg, out, prompt. split; [exact Hload |]. split; [exact Hprompt |]. split.
  - rewrite Htrace, !writes_of_app, writes_of_unet_calls, Hw4, Hw3, Hw2, !writes_of_app.
    simpl. rewrite <- app_assoc. reflexivity.
  - rewrite Htrace, !app_assoc.
    change [EvDecode xN; EvWrite (output_name (PyStr out) prompt)]
      with ([EvDecode xN] ++ [EvWrite (output_name (PyStr out) prompt)])%list.
    rewrite !app_assoc. apply last_snoc.
Qed.

(** *** Failures of a denoising step *)

(** Showing that a run raises after some operations that return. *)
Ltac run_then_raise :=
  repeat (apply bind_raise; right; eexists _, _; split; [prim_ok |]).

(** [X10] When [chunk(3)] of the UNet prediction does not give exactly
    three chunks the step raises [ValueError] (the unpacking fails): the
    UNet has run, the scheduler has not. *)
Theorem denoise_step_bad_chunks self x t w lat ip src noise_pred g1 :
  config self !! "latents_path" = Some (PyStr lat) ->
  config self !! "image_path" = Some (PyStr ip) ->
  load_source_latents_t t (latents_dir_of lat ip) (pickles w) = Done src ->
  unet_forward (unet self) (unet_hooks (register_time self t))
               (torch_cat [src; x; x]) t
               (torch_cat [pnp_guidance_embeds self; text_embeds self]) (gen w)
    = (Done noise_pred, g1) ->
  length (torch_chunk noise_pred 3) <> 3%nat ->
  exists msg,
    denoise_step self x t w
    = (Raise (ValueError msg),
       set_gen g1 (set_trace (trace w ++ [EvUnet t (unet_hooks (register_time self t))]) w)).
Proof.
  intros Hlat Hip Hsrc Hunet Hlen.
  exists (if (length (torch_chunk noise_pred 3) <? 3)%nat
          then "not enough values to unpack (expected 3)"
          else "too many values to unpack (expected 3)").
  unfold denoise_step. run_then_raise.
  destruct (torch_chunk noise_pred 3) as [|s [|u [|c [|d l]]]]; try reflexivity.
  exfalso. apply Hlen. reflexivity.
Qed.

(** [X11] [guidance_scale] is looked up only after the UNet has run: a
    configuration without it makes the first step raise
    [KeyError('guidance_scale')] at that point, with the scheduler not
    yet stepped. *)
Theorem denoise_step_guidance_scale_missing self x t w lat ip src noise_pred g1 s u c :
  config self !! "latents_path" = Some (PyStr lat) ->
  config self !! "image_path" = Some (PyStr ip) ->
  load_source_latents_t t (latents_dir_of lat ip) (pickles w) = Done src ->
  unet_forward (unet self) (unet_hooks (register_time self t))
               (torch_cat [src; x; x]) t
               (torch_cat [pnp_guidance_embeds self; text_embeds self]) (gen w)
    = (Done noise_pred, g1) ->
  torch_chunk noise_pred 3 = [s; u; c] ->
  config self !! "guidance_scale" = None ->
  denoise_step self x t w
  = (Raise (KeyError "guidance_scale"),
     set_gen g1 (set_trace (trace w ++ [EvUnet t (unet_hooks (register_time self t))]) w)).
Proof.
  intros Hlat Hip Hsrc Hunet Hchunk Hscale.
  unfold denoise_step. run_then_raise. rewrite Hchunk.
  apply bind_fail. unfold getitem. simpl. rewrite Hscale. reflexivity.
Qed.

(** *** What a failed run leaves behind *)

Lemma bind_raise_frame {A B} (m : M world A) (k : A -> M world B) w e w' :
  reads_only m ->
  bind m k w = (Raise e, w') ->
  (files w' = files w /\ dirs w' = dirs w) \/
  exists a w1, m w = (Ok a, w1) /\ files w1 = files w /\ dirs w1 = dirs w /\
               k a w1 = (Raise e, w').
Proof.
  intros Hm H. destruct (Hm w) as (Hf & Hd & _).
  apply bind_raise in H as [H | (a & w1 & H1 & H)].
  - rewrite H in Hf, Hd. auto.
  - rewrite H1 in Hf, Hd. right. eauto 8.
Qed.

Lemma reads_only_output_file cfg : reads_only (output_file cfg).
Proof. unfold output_file. repeat reads_only_step. Qed.

(** [X12] The image is saved last: when [sample_loop] raises, whatever
    the reason, no file has been written and no directory made. *)
Theorem sample_loop_failure_writes_nothing self x w e w' :
  sample_loop self x w = (Raise e, w') ->
  files w' = files w /\ dirs w' = dirs w.
Proof.
  unfold sample_loop. intros H.
  apply bind_raise_frame in H as [H | (r & w1 & _ & Hf1 & Hd1 & H)];
    [exact H | | apply reads_only_denoise_loop].
  apply bind_raise_frame in H as [[Hf Hd] | (dec & w2 & _ & Hf2 & Hd2 & H)];
    [split; congruence | | apply reads_only_decode_latent].
  apply bind_raise_frame in H as [[Hf Hd] | (first & w3 & _ & Hf3 & Hd3 & H)];
    [split; congruence | | apply reads_only_lift_outcome].
  apply bind_raise_frame in H as [[Hf Hd] | (img & w4 & _ & Hf4 & Hd4 & H)];
    [split; congruence | | apply reads_only_lift_outcome].
  apply bind_raise_frame in H as [[Hf Hd] | (file & w5 & _ & Hf5 & Hd5 & H)];
    [split; congruence | | apply reads_only_output_file].
  apply bind_raise in H as [H | ([] & w6 & _ & H)]; discriminate H.
Qed.




(** *** Edge cases of the sampling loop *)

(** [X14] With no scheduler time steps the loop body never runs: a
    [sample_loop] that returns has decoded and saved the latent it was
    given, without a single UNet call, and the object is unchanged. *)
Theorem sample_loop_no_timesteps self x w self' decoded w' :
  timesteps (scheduler self) = [] ->
  sample_loop self x w = (Ok (self', decoded), w') ->
  exists out prompt,
    config self !! "output_path" = Some out /\
    config self !! "prompt" = Some prompt /\
    self' = self /\
    trace w' = (trace w ++ [EvDecode x; EvWrite (output_name out prompt)])%list.
Proof.
  intros Hts Hloop.
  apply sample_loop_ok in Hloop
    as (xN & w1 & w2 & first & img & out & prompt & Hsteps & Hdec & _ & _ & Hout & Hprompt & ->).
  rewrite Hts in Hsteps. inversion Hsteps; subst.
  apply decode_latent_ok in Hdec as (k & scaled & raw & g & _ & _ & _ & _ & ->).
  exists out, prompt. simpl. rewrite <- app_assoc. repeat split; assumption.
Qed.

Lemma steps_last_time self ts x w self' x' w' :
  steps self ts x w self' x' w' ->
  hook_t (unet_hooks self') = match last ts with
                              | Some t => Some t
                              | None => hook_t (unet_hooks self)
                              end.
Proof.
  induction 1 as [self x w | self t ts x w self1 x1 w1 self' x' w' Hstep Hsteps IH].
  - reflexivity.
  - apply denoise_step_ok in Hstep
      as (lat & ip & src & np & g1 & s & u & c & scale & scaled & g2
          & _ & _ & _ & _ & _ & _ & _ & _ & -> & _).
    rewrite IH. destruct ts as [|t' ts']; [reflexivity |].
    rewrite last_cons_cons.
    destruct (last (t' :: ts')) eqn:E; [reflexivity |].
    apply last_None in E. discriminate E.
Qed.

(** [X15] Each step registers its time step with the hooks before the
    UNet runs, so after a sampling loop that returned the hooks hold the
    last scheduler time step; the configuration, the scheduler and the
    injection lists are those the loop started with. *)
Theorem sample_loop_final_object self x w self' decoded w' t_last :
  sample_loop self x w = (Ok (self', decoded), w') ->
  last (timesteps (scheduler self)) = Some t_last ->
  hook_t (unet_hooks self') = Some t_last /\
  hook_attn (unet_hooks self') = hook_attn (unet_hooks self) /\
  hook_conv (unet_hooks self') = hook_conv (unet_hooks self) /\
  config self' = config self /\ scheduler self' = scheduler self /\
  qk_injection_timesteps self' = qk_injection_timesteps self /\
  conv_injection_timesteps self' = conv_injection_timesteps self.
Proof.
  intros Hloop Hlast.
  apply sample_loop_ok in Hloop
    as (xN & w1 & w2 & first & img & out & prompt & Hsteps & _).
  pose proof (steps_last_time _ _ _ _ _ _ _ Hsteps) as Ht. rewrite Hlast in Ht.
  apply steps_invariant in Hsteps as (Hcfg & Hsch & _ & Hqk & Hconv & Hattn & Hhc & _).
  repeat split; assumption.
Qed.

(** [X16] [decode_latent] divides by the scaling factor of the VAE
    first: if that is zero it raises [ZeroDivisionError] and the VAE is
    never called. *)
Theorem decode_latent_zero_scaling self latent w :
  (vae_scaling_factor (vae self) = PyInt 0 \/
   exists s, vae_scaling_factor (vae self) = PyFloat (S754_zero s)) ->
  decode_latent self latent w
  = (Raise ZeroDivisionError, set_trace (trace w ++ [EvDecode latent]) w).
Proof.
  intros Hzero. unfold decode_latent.
  apply bind_raise. right. eexists tt, _. split; [apply emit_ok; reflexivity |].
  apply bind_fail.
  destruct Hzero as [-> | [s ->]]; reflexivity.
Qed.

(** [X17] A ratio that is not a finite number ([.nan] or [.inf] in the
    YAML file) stops [run_pnp] at the conversion to [int], with
    [ValueError] or [OverflowError], before any hook is registered and
    before the first denoising step. *)
Theorem run_pnp_ratio_not_finite self w n ratio :
  config self !! "n_timesteps" = Some (PyInt n) ->
  config self !! "pnp_f_t" = Some (PyFloat ratio) ->
  (ratio = S754_nan \/ exists s, ratio = S754_infinity s) ->
  exists e,
    run_pnp self w = (Raise e, w) /\
    (e = OverflowError \/ e = ValueError "cannot convert float NaN to integer").
Proof.
  intros Hn Hf Hratio. unfold run_pnp.
  rewrite (bind_step _ _ _ _ _ (getitem_some _ _ _ _ Hn)).
  rewrite (bind_step _ _ _ _ _ (getitem_some _ _ _ _ Hf)).
  unfold mul, as_num, float_of_int.
  destruct (f64_of_Z n) as [sz | sz | | sz m ex] eqn:Hconv; simpl.
  - (* zero *)
    destruct Hratio as [-> | [s ->]]; eexists; split; try reflexivity; auto.
  - eexists; split; [reflexivity | auto].
  - destruct Hratio as [-> | [s ->]]; eexists; split; try reflexivity; auto.
  - destruct Hratio as [-> | [s ->]]; eexists; split; try reflexivity; auto.
Qed.

(** *** The directory of the cached latents *)

Lemma length_append s t :
  String.length (s +:+ t) = (String.length s + String.length t)%nat.
Proof. induction s as [|a s IH]; simpl; [reflexivity | rewrite IH; reflexivity]. Qed.

Lemma substring_0_length s : String.substring 0 (String.length s) s = s.
Proof. induction s as [|a s IH]; simpl; [reflexivity | rewrite IH; reflexivity]. Qed.

Lemma substring_skip a b m :
  String.substring (String.length a) m (a +:+ b) = String.substring 0 m b.
Proof. induction a as [|c a IH]; simpl; [reflexivity | exact IH]. Qed.

Lemma substring_0_app a b : String.substring 0 (String.length a) (a +:+ b) = a.
Proof.
  induction a as [|c a IH]; simpl; [destruct b; reflexivity | rewrite IH; reflexivity].
Qed.

Lemma rfind_from_app c a b i found :
  OsPath.rfind_from c (a +:+ b) i found
  = OsPath.rfind_from c b (i + Z.of_nat (String.length a)) (OsPath.rfind_from c a i found).
Proof.
  revert i found. induction a as [|x a IH]; intros i found; simpl.
  - f_equal. lia.
  - rewrite IH. f_equal. lia.
Qed.

Lemma rfind_from_no_sep s i found :
  no_sep s = true -> OsPath.rfind_from OsPath.sep s i found = found.
Proof.
  revert i found. induction s as [|x s IH]; intros i found H; simpl in *; [reflexivity |].
  apply andb_true_iff in H as [Hx Hs]. apply negb_true_iff in Hx.
  rewrite Hx. apply IH, Hs.
Qed.

Lemma rfind_from_no_dot s i found :
  no_dot s = true -> OsPath.rfind_from OsPath.extsep s i found = found.
Proof.
  revert i found. induction s as [|x s IH]; intros i found H; simpl in *; [reflexivity |].
  apply andb_true_iff in H as [Hx Hs]. apply negb_true_iff in Hx.
  rewrite Hx. apply IH, Hs.
Qed.

Lemma from_app a b : OsPath.from (Z.of_nat (String.length a)) (a +:+ b) = b.
Proof.
  unfold OsPath.from. rewrite Nat2Z.id, length_append.
  replace (String.length a + String.length b - String.length a)%nat
    with (String.length b) by lia.
  rewrite substring_skip. apply substring_0_length.
Qed.

Lemma upto_app a b : OsPath.upto (Z.of_nat (String.length a)) (a +:+ b) = a.
Proof. unfold OsPath.upto. rewrite Nat2Z.id. apply substring_0_app. Qed.

(** The base name of a path is what follows its last separator. *)
Lemma basename_dir d n :
  no_sep n = true -> OsPath.basename (d +:+ String "/" n) = n.
Proof.
  intros Hn. unfold OsPath.basename, OsPath.rfind.
  rewrite rfind_from_app. simpl. rewrite rfind_from_no_sep by exact Hn.
  replace (0 + Z.of_nat (String.length d) + 1)
    with (Z.of_nat (String.length (d +:+ "/"))) by (rewrite length_append; simpl; lia).
  replace (d +:+ String "/" n) with ((d +:+ "/") +:+ n).
  - apply from_app.
  - clear. induction d as [|c d IH]; [reflexivity |].
    exact (f_equal (String c) IH).
Qed.

Lemma basename_plain n : no_sep n = true -> OsPath.basename n = n.
Proof.
  intros Hn. unfold OsPath.basename, OsPath.rfind.
  rewrite rfind_from_no_sep by exact Hn. apply (from_app EmptyString n).
Qed.

Lemma no_sep_app a b : no_sep (a +:+ b) = (no_sep a && no_sep b)%bool.
Proof.
  induction a as [|c a IH]; simpl; [reflexivity |]. rewrite IH. apply andb_assoc.
Qed.

(** The extension of a file name with one dot, not at its start. *)
Lemma splitext_simple b e :
  b <> EmptyString -> no_sep b = true -> no_dot b = true ->
  no_sep e = true -> no_dot e = true ->
  OsPath.splitext (b +:+ String "." e) = (b, String "." e).
Proof.
  intros Hb Hsb Hdb Hse Hde. unfold OsPath.splitext, OsPath.rfind.
  assert (Hsep : OsPath.rfind_from OsPath.sep (b +:+ String "." e) 0 (-1) = -1).
  { apply rfind_from_no_sep. rewrite no_sep_app. simpl. rewrite Hsb, Hse. reflexivity. }
  assert (Hdot : OsPath.rfind_from OsPath.extsep (b +:+ String "." e) 0 (-1)
                 = Z.of_nat (String.length b)).
  { rewrite rfind_from_app. simpl. rewrite rfind_from_no_dot by exact Hde. lia. }
  rewrite Hsep, Hdot.
  replace (-1 <? Z.of_nat (String.length b)) with true by (symmetry; apply Z.ltb_lt; lia).
  replace (Z.to_nat (Z.of_nat (String.length b) - (-1 + 1))) with (String.length b) by lia.
  destruct b as [|c b]; [contradiction |]. simpl in Hdb.
  apply andb_true_iff in Hdb as [Hc _]. apply negb_true_iff in Hc.
  simpl. rewrite Hc.
  change (S (String.length b)) with (String.length (String c b)).
  rewrite upto_app, from_app. reflexivity.
Qed.

(** [X18] The directory of the cached latents depends on the image only
    through the stem of its file name: for an image [dir/base.ext] (the
    base non-empty and without dots) it is [join(latents_path, base)],
    whatever the directory and the extension. *)
Theorem latents_dir_of_stem lat dir base ext :
  base <> EmptyString -> no_sep base = true -> no_dot base = true ->
  no_sep ext = true -> no_dot ext = true ->
  stem_of (dir +:+ "/" +:+ base +:+ "." +:+ ext) = base /\
  stem_of (base +:+ "." +:+ ext) = base /\
  latents_dir_of lat (dir +:+ "/" +:+ base +:+ "." +:+ ext) = OsPath.join lat [base].
Proof.
  intros Hb Hsb Hdb Hse Hde.
  assert (Hname : no_sep (base +:+ String "." ext) = true).
  { rewrite no_sep_app. simpl. rewrite Hsb, Hse. reflexivity. }
  assert (H1 : stem_of (dir +:+ "/" +:+ base +:+ "." +:+ ext) = base).
  { unfold stem_of. change ("/" +:+ base +:+ "." +:+ ext) with (String "/" (base +:+ String "." ext)).
    rewrite basename_dir by exact Hname. rewrite splitext_simple by assumption. reflexivity. }
  split; [exact H1 | split].
  - unfold stem_of. change ("." +:+ ext) with (String "." ext).
    rewrite basename_plain by exact Hname. rewrite splitext_simple by assumption. reflexivity.
  - unfold latents_dir_of. rewrite H1. reflexivity.
Qed.

Lemma last_sep_split s :
  no_sep s = true \/ exists a b, s = a +:+ String "/" b /\ no_sep b = true.
Proof.
  induction s as [|x s IH]; [left; reflexivity |].
  destruct IH as [Hs | (a & b & -> & Hb)].
  - destruct (Ascii.eqb x OsPath.sep) eqn:Hx.
    + right. exists EmptyString, s. apply Ascii.eqb_eq in Hx. subst x. auto.
    + left. simpl. rewrite Hx, Hs. reflexivity.
  - right. exists (String x a), b. auto.
Qed.

Lemma basename_no_sep p : no_sep (OsPath.basename p) = true.
Proof.
  destruct (last_sep_split p) as [Hp | (a & b & -> & Hb)].
  - rewrite basename_plain; assumption.
  - rewrite basename_dir; assumption.
Qed.

Lemma startswith_sep_substring n k :
  no_sep n = true -> OsPath.startswith_sep (String.substring 0 k n) = false.
Proof.
  intros H. destruct n as [|c n]; destruct k; simpl in *; try reflexivity.
  apply andb_true_iff in H as [Hc _]. apply negb_true_iff in Hc. exact Hc.
Qed.

Lemma startswith_sep_no_sep n : no_sep n = true -> OsPath.startswith_sep n = false.
Proof.
  intros H. destruct n as [|c n]; simpl in *; [reflexivity |].
  apply andb_true_iff in H as [Hc _]. apply negb_true_iff in Hc. exact Hc.
Qed.

Lemma stem_of_relative ip : OsPath.startswith_sep (stem_of ip) = false.
Proof.
  unfold stem_of, OsPath.splitext.
  pose proof (basename_no_sep ip) as Hn.
  destruct (_ && _)%bool; simpl.
  - apply startswith_sep_substring, Hn.
  - apply startswith_sep_no_sep, Hn.
Qed.

(** [X19] The stem of a file name never starts with a separator, so
    [os.path.join] never drops [latents_path]: whatever [image_path] is,
    the directory of the cached latents is [latents_path] followed by
    the stem, with one separator in between unless [latents_path] is
    empty or ends with one. *)
Theorem latents_dir_inside lat ip :
  latents_dir_of lat ip = lat +:+ "/" +:+ stem_of ip \/
  latents_dir_of lat ip = lat +:+ stem_of ip.
Proof. unfold latents_dir_of. apply join_child, stem_of_relative. Qed.

(** *** The name of the output image *)



(** *** The injection lists *)

(** [X21] The injection lists grow with the horizons: a list has
    [min(max(k, 0), len(timesteps))] elements, the list of a smaller
    horizon is a prefix of the list of a larger one whatever the other
    horizon is, the attention list of a horizon is the convolution list
    of the same horizon, and the convolution list is what
    [register_conv_control_efficient] receives. *)
Theorem init_pnp_monotone self conv_t qk_t conv_t' qk_t' :
  conv_t <= conv_t' ->
  exists l l',
    conv_injection_timesteps (init_pnp self conv_t qk_t) = Some l /\
    conv_injection_timesteps (init_pnp self conv_t' qk_t') = Some l' /\
    l `prefix_of` l' /\
    length l = Nat.min (Z.to_nat conv_t) (length (timesteps (scheduler self))) /\
    qk_injection_timesteps (init_pnp self qk_t conv_t) = Some l /\
    hook_conv (unet_hooks (init_pnp self conv_t qk_t)) = Some l.
Proof.
  intros Hle.
  destruct (init_pnp_lists self conv_t qk_t) as (Hc & _ & Hh & _).
  destruct (init_pnp_lists self conv_t' qk_t') as (Hc' & _).
  destruct (init_pnp_lists self qk_t conv_t) as (_ & Hq & _).
  rewrite injection_list_take in Hc, Hc', Hq, Hh.
  exists (take (Z.to_nat conv_t) (timesteps (scheduler self))),
         (take (Z.to_nat conv_t') (timesteps (scheduler self))).
  repeat split; try assumption.
  - exists (drop (Z.to_nat conv_t)
              (take (Z.to_nat conv_t') (timesteps (scheduler self)))).
    assert (Htake : take (Z.to_nat conv_t) (timesteps (scheduler self))
                    = take (Z.to_nat conv_t)
                        (take (Z.to_nat conv_t') (timesteps (scheduler self)))).
    { rewrite take_take. f_equal. symmetry. apply Nat.min_l. lia. }
    rewrite Htake. symmetry. apply take_drop.
  - apply length_take.
Qed.

(** *** The image tensor is never used *)

Lemma bind_map {A B C} (f : B -> C) (m : M world A) (k : A -> M world B)
    (k' : A -> M world C) w :
  (forall a w1, k' a w1 = (map_result f (fst (k a w1)), snd (k a w1))) ->
  bind m k' w = (map_result f (fst (bind m k w)), snd (bind m k w)).
Proof.
  intros Hk. unfold bind. destruct (m w) as [[a|e] w1]; [apply Hk | reflexivity].
Qed.

Lemma bind_map_both {A A' B C} (g : A -> A') (f : B -> C)
    (m : M world A) (m' : M world A') (k : A -> M world B) (k' : A' -> M world C) w :
  m' w = (map_result g (fst (m w)), snd (m w)) ->
  (forall a w1, k' (g a) w1 = (map_result f (fst (k a w1)), snd (k a w1))) ->
  bind m' k' w = (map_result f (fst (bind m k w)), snd (bind m k w)).
Proof.
  intros Hm Hk. unfold bind. rewrite Hm.
  destruct (m w) as [[a|e] w1]; simpl; [apply Hk | reflexivity].
Qed.

Lemma denoise_step_with_image img self x t w :
  denoise_step (with_image img self) x t w
  = (map_result (with_image_fst img) (fst (denoise_step self x t w)),
     snd (denoise_step self x t w)).
Proof.
  unfold denoise_step.
  repeat (apply (bind_map (with_image_fst img)); intros ? ?).
  simpl. destruct (torch_chunk _ 3) as [|s [|u [|c [|d l]]]]; try reflexivity.
  repeat (apply (bind_map (with_image_fst img)); intros ? ?).
  reflexivity.
Qed.

Lemma denoise_loop_with_image img self ts x w :
  denoise_loop (with_image img self) ts x w
  = (map_result (with_image_fst img) (fst (denoise_loop self ts x w)),
     snd (denoise_loop self ts x w)).
Proof.
  revert self x w. induction ts as [|t ts IH]; intros self x w; [reflexivity |].
  simpl. apply (bind_map_both (with_image_fst img) (with_image_fst img)).
  - apply denoise_step_with_image.
  - intros [s1 x1] ?. apply IH.
Qed.

Lemma sample_loop_with_image img self x w :
  sample_loop (with_image img self) x w
  = (map_result (with_image_fst img) (fst (sample_loop self x w)),
     snd (sample_loop self x w)).
Proof.
  unfold sample_loop.
  apply (bind_map_both (with_image_fst img) (with_image_fst img)).
  - apply denoise_loop_with_image.
  - intros [s1 x1] ?. simpl.
    unfold decode_latent, output_file.
    repeat (apply (bind_map (with_image_fst img)); intros ? ?).
    reflexivity.
Qed.

(** [X22] Sampling never looks at the image tensor that [get_data]
    stored in [self.image]: with any other tensor in its place [run_pnp]
    raises or returns alike, leaves the same world (the same output
    image) and returns the same object but for that field.  The source
    image reaches the result only through its file name. *)
Theorem run_pnp_ignores_image img self w :
  run_pnp (with_image img self) w
  = (map_result (with_image img) (fst (run_pnp self w)), snd (run_pnp self w)).
Proof.
  unfold run_pnp.
  repeat (apply (bind_map (with_image img)); intros ? ?).
  apply (bind_map_both (with_image_fst img) (with_image img)).
  - apply (sample_loop_with_image img (init_pnp self _ _)).
  - intros [s1 x1] ?. reflexivity.
Qed.

(** *** [get_text_embeds] *)


(** *** What the constructor loads *)

(** The version of a returning constructor is one of the four strings. *)
Ltac known_version :=
  repeat match goal with
         | He : eq_str ?v _ = true |- _ => is_var v; apply eq_str_true in He; subst v
         end;
  try match goal with
      | He : eq_str (PyStr _) _ = true |- _ => discriminate He
      end.

(** [X24] A constructor that returns has printed 'Loading SD model',
    loaded the models of its version from one checkpoint (for
    [xl-base] a UNet and then the XL pipeline, otherwise the pipeline
    alone, and last the DDIM scheduler), printed 'SD model loaded' and
    then read two files: the image, and the cached latent of the first
    time step.  Nothing else is recorded. *)
Theorem PNP_init_trace cfg w self w' :
  PNP_init cfg w = (Ok self, w') ->
  exists v ip lat t0,
    cfg !! "sd_version" = Some (PyStr v) /\
    cfg !! "image_path" = Some (PyStr ip) /\
    cfg !! "latents_path" = Some (PyStr lat) /\
    timesteps (scheduler self) !! 0%nat = Some t0 /\
    trace w' = (trace w ++ [EvPrint (PStr "Loading SD model")] ++ loaded_models v
                ++ [EvPrint (PStr "SD model loaded"); EvRead ip;
                    EvRead (OsPath.join lat [stem_of ip; noisy_latents_name t0])])%list.
Proof.
  unfold PNP_init. intros H. inv_run.
  all: match goal with
       | Hg : get_data _ _ _ _ = (Ok ?r, _) |- _ =>
           destruct r as [img0 eps0];
           destruct (proj1 (get_data_ok _ _ _ _ _ _ _) Hg)
             as (ip & raw & rgb & lat & t0 & loaded
                 & Hip & _ & _ & _ & Hlat & Ht0 & _ & _ & Hw1)
       end.
  all: known_version.
  all: eexists _, ip, lat, t0.
  all: repeat match goal with |- _ /\ _ => split end; try eassumption.

  all: simpl; rewrite Hw1; simpl; rewrite <- !app_assoc; reflexivity.
Qed.


(** [X25] The text embeddings of the object are
    [cat([negative_prompt_embeds, prompt_embeds])] of one call of
    [encode_prompt] with the prompt and the negative prompt of the
    configuration and one image per prompt; the guidance embeddings are
    the first of the two chunks of the same for two empty prompts,
    encoded after the first pair. *)
Theorem PNP_init_embeds cfg w self w' :
  PNP_init cfg w = (Ok self, w') ->
  exists prompt negative_prompt g0 pe ne pp np g1 pe0 ne0 pp0 np0,
    cfg !! "prompt" = Some prompt /\
    cfg !! "negative_prompt" = Some negative_prompt /\
    encode_prompt (pipe self) prompt negative_prompt 1 g0 = (Done (pe, ne, pp, np), g1) /\
    text_embeds self = torch_cat [ne; pe] /\
    encode_prompt (pipe self) (PyStr EmptyString) (PyStr EmptyString) 1 g1
      = (Done (pe0, ne0, pp0, np0), gen w') /\
    index (torch_chunk (torch_cat [ne0; pe0]) 2) 0 = Ok (pnp_guidance_embeds self).
Proof.
  unfold PNP_init. intros H. inv_run.
  all: do 12 eexists; repeat match goal with |- _ /\ _ => split end;
    try eassumption; reflexivity.
Qed.

(** [X26] The pipeline is moved to 'cuda' whatever [config["device"]]
    says; the configured device receives the UNet that [xl-base] loads
    on its own and hands to the XL pipeline, and the time steps of the
    scheduler.  Every model comes from the checkpoint of the version,
    in the order UNet, pipeline, scheduler. *)
Theorem PNP_init_pipeline cfg w self w' :
  PNP_init cfg w = (Ok self, w') ->
  exists dev v p0 p1 g1 g2 sch0 n,
    cfg !! "device" = Some dev /\ cfg !! "sd_version" = Some (PyStr v) /\
    (if String.eqb v "xl-base"
     then exists u0 u1 g0,
         unet_from_pretrained (checkpoints w) (model_key_of v) (gen w) = (Done u0, g0) /\
         unet_to u0 dev = Done u1 /\
         sdxl_from_pretrained (checkpoints w) (model_key_of v) u1 g0 = (Done p0, g1)
     else sd_from_pretrained (checkpoints w) (model_key_of v) (gen w) = (Done p0, g1)) /\
    pipe_to p0 "cuda" = Done p1 /\
    enable_xformers_memory_efficient_attention p1 = Done (pipe self) /\
    ddim_from_pretrained (checkpoints w) (model_key_of v) g1 = (Done sch0, g2) /\
    cfg !! "n_timesteps" = Some n /\
    set_timesteps sch0 n dev = Done (scheduler self).
Proof.
  unfold PNP_init. intros H. inv_run.
  all: known_version.
  all: simpl in *.
  all: do 8 eexists; split; [eassumption |]; split; [eassumption |]; simpl.
  all: split; [first [eassumption | eauto 8] |].
  all: repeat match goal with |- _ /\ _ => split end; eassumption.
Qed.

(** *** Failures of [get_data] *)

(** [X27] When the image file does not exist [Image.open] raises
    [FileNotFoundError] for [image_path]; the cached latent is not
    looked for. *)
Theorem get_data_image_missing cfg dev sch w ip :
  cfg !! "image_path" = Some (PyStr ip) ->
  files w !! ip = None ->
  get_data cfg dev sch w
  = (Raise (FileNotFoundError ip), set_trace (trace w ++ [EvRead ip]) w).
Proof.
  intros Hip Hfile. unfold get_data. run_then_raise.
  apply bind_fail. unfold Image_open. apply bind_fail.
  unfold read_file, bind, emit. simpl. rewrite Hfile. reflexivity.
Qed.

(** [X28] When the image is there but the cached latent of the first
    time step is not, [torch.load] raises [FileNotFoundError] for
    [latents_path/stem/noisy_latents_{t0}.pt], after the image was
    opened, converted, resized and moved to the device. *)
Theorem get_data_latents_missing cfg dev sch w ip raw rgb img lat t0 :
  cfg !! "image_path" = Some (PyStr ip) ->
  files w !! ip = Some (FImage raw) ->
  convert_pixels (im_mode raw) "RGB" (im_data raw) = Done rgb ->
  tensor_to (ToTensor (im_mode (prepared_image raw rgb)) (im_size (prepared_image raw rgb))
                      (im_data (prepared_image raw rgb))) dev = Done img ->
  cfg !! "latents_path" = Some (PyStr lat) ->
  timesteps sch !! 0%nat = Some t0 ->
  files w !! OsPath.join lat [stem_of ip; noisy_latents_name t0] = None ->
  get_data cfg dev sch w
  = (Raise (FileNotFoundError (OsPath.join lat [stem_of ip; noisy_latents_name t0])),
     set_trace (trace w ++ [EvRead ip;
                            EvRead (OsPath.join lat [stem_of ip; noisy_latents_name t0])]) w).
Proof.
  intros Hip Hraw Hrgb Himg Hlat Ht0 Hfile.
  assert (Hidx : index (timesteps sch) 0 = Ok t0) by (unfold index; rewrite Ht0; auto).
  unfold get_data. run_then_raise.
  apply bind_fail. unfold torch_load. apply bind_fail.
  change (OsPath.join lat [stem_of ip; "noisy_latents_" +:+ pretty t0 +:+ ".pt"])
    with (OsPath.join lat [stem_of ip; noisy_latents_name t0]).
  set (p := OsPath.join lat [stem_of ip; noisy_latents_name t0]) in *.
  unfold read_file, bind, emit. simpl. rewrite Hfile. rewrite <- app_assoc. reflexivity.
Qed.

(** [X29] With a scheduler that has no time steps [timesteps[0]] raises
    [IndexError]: the image was opened by then, and no latent file is
    read. *)
Theorem get_data_no_timesteps cfg dev sch w ip raw rgb img lat :
  cfg !! "image_path" = Some (PyStr ip) ->
  files w !! ip = Some (FImage raw) ->
  convert_pixels (im_mode raw) "RGB" (im_data raw) = Done rgb ->
  tensor_to (ToTensor (im_mode (prepared_image raw rgb)) (im_size (prepared_image raw rgb))
                      (im_data (prepared_image raw rgb))) dev = Done img ->
  cfg !! "latents_path" = Some lat ->
  timesteps sch = [] ->
  get_data cfg dev sch w = (Raise IndexError, set_trace (trace w ++ [EvRead ip]) w).
Proof.
  intros Hip Hraw Hrgb Himg Hlat Hts.
  unfold get_data. run_then_raise.
  apply bind_fail. unfold index. rewrite Hts. reflexivity.
Qed.

End Properties.

(** ** Concrete runs *)

(** A run that is known to return by evaluating it. *)
Ltac returns_by_evaluation H :=
  match type of H with
  | ?m = (Raise _, _) =>
      let B := fresh in
      assert (B : is_ok (fst m) = true) by (vm_compute; reflexivity);
      rewrite H in B; discriminate B
  end.

Example PNP_init_horse :
  match fst (PNP_init Toy.horse_cfg (Toy.horse_world 1)) with
  | Ok self =>
      (device self, scheduler self, image self, eps self, text_embeds self,
       pnp_guidance_embeds self)
      = (device Toy.horse_pnp, scheduler Toy.horse_pnp, image Toy.horse_pnp,
         eps Toy.horse_pnp, text_embeds Toy.horse_pnp, pnp_guidance_embeds Toy.horse_pnp)
  | Raise _ => False
  end.
Proof. vm_compute. reflexivity. Qed.

Example horizons_horse :
  rbind (mul (PyInt 50) (PyFloat Toy.f64_0_8)) int = Ok 40 /\
  rbind (mul (PyInt 50) (PyFloat Toy.f64_0_5)) int = Ok 25.
Proof. split; reflexivity. Qed.

Lemma init_pnp_prefix_witness :
  exists conv qk,
    conv_injection_timesteps (init_pnp Toy.horse_pnp 1 (-3)) = Some conv /\
    qk_injection_timesteps (init_pnp Toy.horse_pnp 1 (-3)) = Some qk /\
    conv = [501] /\ qk = [].
Proof.
  destruct (init_pnp_prefix Toy.horse_pnp 1 (-3) 2 eq_refl)
    as (conv & qk & Hc & Hq & Hconv & Hqk & _).
  exists conv, qk. repeat split; assumption.
Defined.



Lemma run_pnp_injection_witness :
  conv_injection_timesteps (init_pnp Toy.horse_pnp 1 1) = Some [501] /\
  qk_injection_timesteps (init_pnp Toy.horse_pnp 1 1) = Some [501].
Proof.
  destruct (run_pnp_injection Toy.horse_pnp (PyInt 2) (PyFloat Toy.f64_0_8)
              (PyFloat Toy.f64_0_5) 1 1 (Toy.horse_world 1)
              eq_refl eq_refl eq_refl eq_refl eq_refl)
    as (_ & Hconv & Hqk & _).
  split; [exact Hconv | exact Hqk].
Defined.

Lemma latents_from_disk_witness :
  exists self lat ip t0 loaded,
    fst (PNP_init Toy.horse_cfg (Toy.horse_world 1)) = Ok self /\
    Toy.horse_cfg !! "latents_path" = Some (PyStr lat) /\
    Toy.horse_cfg !! "image_path" = Some (PyStr ip) /\
    files (Toy.horse_world 1) !! OsPath.join (latents_dir_of lat ip) [noisy_latents_name t0]
      = Some (FPickle loaded) /\
    tensor_to loaded (device self) = Done (eps self).
Proof.
  destruct (PNP_init Toy.horse_cfg (Toy.horse_world 1)) as [[self|e] w'] eqn:H;
    [| returns_by_evaluation H].
  destruct (proj1 latents_from_disk _ _ _ _ H)
    as (lat & ip & t0 & loaded & Hlat & Hip & _ & _ & Hfile & Hto).
  exists self, lat, ip, t0, loaded. repeat split; assumption.
Defined.

Lemma denoise_step_guidance_witness :
  exists self' d w' noise_pred noise_pred_uncond noise_pred_cond guidance_scale scaled g1 g2,
    denoise_step (init_pnp Toy.horse_pnp 1 1) [40] 501 (Toy.horse_world 1)
      = (Ok (self', d), w') /\
    (exists discarded,
        torch_chunk noise_pred 3 = [discarded; noise_pred_uncond; noise_pred_cond]) /\
    tensor_rmul guidance_scale (tensor_sub noise_pred_cond noise_pred_uncond) = Done scaled /\
    scheduler_step (scheduler (init_pnp Toy.horse_pnp 1 1))
                   (tensor_add noise_pred_uncond scaled) 501 [40] g1 = (Done d, g2).
Proof.
  destruct (denoise_step (init_pnp Toy.horse_pnp 1 1) [40] 501 (Toy.horse_world 1))
    as [[[self' d]|e] w'] eqn:H; [| returns_by_evaluation H].
  destruct (proj1 (denoise_step_guidance _ _ _ _ _ _ _) H)
    as (lat & ip & src & np & g1 & u & c & scale & scaled & g2
        & _ & _ & _ & _ & Hchunk & _ & Hmul & Hstep & _).
  exists self', d, w', np, u, c, scale, scaled, g1, g2.
  repeat split; assumption.
Defined.





Lemma get_data_image_witness :
  fst (get_data Toy.horse_cfg (PyStr "cuda") (scheduler Toy.horse_pnp) (Toy.horse_world 1))
  = Ok (image Toy.horse_pnp, eps Toy.horse_pnp).
Proof.
  apply (proj1 get_data_image Toy.horse_cfg (PyStr "cuda") (scheduler Toy.horse_pnp)
           (Toy.horse_world 1) "data/horse.png" Toy.horse_image
           (im_data Toy.horse_image) (image Toy.horse_pnp) "latents" 501
           (eps Toy.horse_pnp) (eps Toy.horse_pnp));
    reflexivity.
Defined.

(** ** Concrete runs for the further properties *)

(** A run that is known to raise by evaluating it. *)
Ltac raises_by_evaluation H :=
  match type of H with
  | ?m = (Ok _, _) =>
      let B := fresh in
      assert (B : is_ok (fst m) = false) by (vm_compute; reflexivity);
      rewrite H in B; discriminate B
  end.

Lemma main_config_file_missing_witness :
  fst (main None (Toy.horse_world 1)) = Raise (FileNotFoundError "pnp-configs/config-horse.yaml") /\
  trace (snd (main None (Toy.horse_world 1))) = [EvRead "pnp-configs/config-horse.yaml"].
Proof.
  rewrite (main_config_file_missing None (Toy.horse_world 1) eq_refl).
  split; reflexivity.
Defined.

Lemma main_output_path_missing_witness :
  fst (main (Some "cfg.yaml") (Broken.world_of "no output")) = Raise (KeyError "output_path") /\
  files (snd (main (Some "cfg.yaml") (Broken.world_of "no output")))
  = files (Broken.world_of "no output").
Proof.
  destruct (main_output_path_missing (L := Broken.lib) (Some "cfg.yaml")
              (Broken.world_of "no output") "no output" Broken.no_output_cfg
              eq_refl eq_refl eq_refl) as (Hraise & Hfiles & _).
  split; assumption.
Defined.

Lemma main_output_path_is_file_witness :
  fst (main (Some "cfg.yaml") Edge.blocked_world) = Raise (FileExistsError "out") /\
  files (snd (main (Some "cfg.yaml") Edge.blocked_world)) = files Edge.blocked_world.
Proof.
  assert (Hload : loads_config (Some "cfg.yaml") Edge.blocked_world Toy.horse_cfg "out").
  { exists "horse". repeat split. }
  destruct (main_output_path_is_file (Some "cfg.yaml") Edge.blocked_world Toy.horse_cfg "out"
              (FText "not a directory") Hload eq_refl) as (Hraise & Hfiles & _).
  split; assumption.
Defined.


Lemma PNP_init_missing_keys_witness :
  PNP_init (delete "device" Toy.horse_cfg) (Toy.horse_world 1)
  = (Raise (KeyError "device"), Toy.horse_world 1) /\
  PNP_init (delete "sd_version" Toy.horse_cfg) (Toy.horse_world 1)
  = (Raise (KeyError "sd_version"), Toy.horse_world 1).
Proof.
  split.
  - apply (proj1 (PNP_init_missing_keys (delete "device" Toy.horse_cfg) (Toy.horse_world 1))).
    reflexivity.
  - apply (proj2 (PNP_init_missing_keys (delete "sd_version" Toy.horse_cfg) (Toy.horse_world 1))
             (PyStr "cuda")); reflexivity.
Defined.

Lemma PNP_init_unsupported_message_witness :
  fst (PNP_init (<["sd_version" := PyInt 2]> Toy.horse_cfg) (Toy.horse_world 1))
  = Raise (ValueError "Stable-diffusion version 2 not supported.").
Proof.
  assert (Hdev : <["sd_version" := PyInt 2]> Toy.horse_cfg !! "device" = Some (PyStr "cuda"))
    by reflexivity.
  assert (Hv : <["sd_version" := PyInt 2]> Toy.horse_cfg !! "sd_version" = Some (PyInt 2))
    by reflexivity.
  destruct (PNP_init_unsupported_message (<["sd_version" := PyInt 2]> Toy.horse_cfg)
              (PyStr "cuda") (PyInt 2) (Toy.horse_world 1) Hdev Hv) as [Hmsg Hnot].
  rewrite Hmsg by (apply Hnot; discriminate). reflexivity.
Defined.

Lemma PNP_init_fresh_witness :
  exists self w',
    PNP_init Toy.horse_cfg (Toy.horse_world 1) = (Ok self, w') /\
    timesteps (scheduler self) <> [] /\ config self = Toy.horse_cfg /\
    conv_injection_timesteps self = None /\
    unet_hooks self = {| hook_t := None; hook_attn := None; hook_conv := None |}.
Proof.
  destruct (PNP_init Toy.horse_cfg (Toy.horse_world 1)) as [[self|e] w'] eqn:H;
    [| returns_by_evaluation H].
  destruct (PNP_init_fresh Toy.horse_cfg (Toy.horse_world 1) self w' H)
    as (Hts & Hcfg & _ & _ & _ & Hconv & Hhooks).
  exists self, w'. split; [reflexivity |]. split; [exact Hts |]. split; [exact Hcfg |].
  split; assumption.
Defined.

Lemma main_three_writes_witness :
  writes_of (trace (snd (main (Some "cfg.yaml") (Toy.horse_world 1))))
  = [EvMakedirs "out"; EvWrite "out/config.yaml";
     EvWrite "out/output-a photo of a cat.png"].
Proof.
  assert (Hload : loads_config (Some "cfg.yaml") (Toy.horse_world 1) Toy.horse_cfg "out").
  { exists "horse". repeat split. }
  destruct (main (Some "cfg.yaml") (Toy.horse_world 1)) as [[self|e] w'] eqn:H;
    [| returns_by_evaluation H].
  destruct (main_three_writes (Some "cfg.yaml") (Toy.horse_world 1) self w' H)
    as (cfg & out & prompt & Hload' & Hprompt & Hwrites & _).
  destruct (loads_config_inj _ _ _ _ _ _ Hload Hload') as [-> ->].
  assert (E : Toy.horse_cfg !! "prompt" = Some (PyStr "a photo of a cat")) by reflexivity.
  rewrite E in Hprompt. injection Hprompt as <-. exact Hwrites.
Defined.

Lemma denoise_step_bad_chunks_witness :
  exists msg w',
    denoise_step (init_pnp Toy.horse_pnp 1 1) [] 501 (Toy.horse_world 1)
    = (Raise (ValueError msg), w') /\
    trace w' = [unet_call (Some [501]) (Some [501]) 501].
Proof.
  destruct (denoise_step_bad_chunks (init_pnp Toy.horse_pnp 1 1) [] 501 (Toy.horse_world 1)
              "latents" "data/horse.png" [40] [542] 2 eq_refl eq_refl eq_refl eq_refl)
    as [msg H].
  - vm_compute. discriminate.
  - exists msg. eexists. split; [exact H | reflexivity].
Defined.

Lemma denoise_step_guidance_scale_missing_witness :
  fst (denoise_step Edge.unguided_pnp [40] 501 (Toy.horse_world 1))
  = Raise (KeyError "guidance_scale").
Proof.
  rewrite (denoise_step_guidance_scale_missing Edge.unguided_pnp [40] 501 (Toy.horse_world 1)
             "latents" "data/horse.png" [40] [542; 542; 542] 2 [542] [542] [542]
             eq_refl eq_refl eq_refl eq_refl eq_refl eq_refl).
  reflexivity.
Defined.

Lemma sample_loop_failure_writes_nothing_witness :
  is_ok (fst (sample_loop (init_pnp Toy.horse_pnp 1 1) [] (Toy.horse_world 1))) = false /\
  files (snd (sample_loop (init_pnp Toy.horse_pnp 1 1) [] (Toy.horse_world 1)))
  = files (Toy.horse_world 1).
Proof.
  destruct (sample_loop (init_pnp Toy.horse_pnp 1 1) [] (Toy.horse_world 1))
    as [[r|e] w'] eqn:H; [raises_by_evaluation H |].
  split; [reflexivity |].
  exact (proj1 (sample_loop_failure_writes_nothing _ _ _ _ _ H)).
Defined.


Lemma sample_loop_no_timesteps_witness :
  exists self' decoded w',
    sample_loop Edge.idle_pnp [40] (Toy.horse_world 1) = (Ok (self', decoded), w') /\
    self' = Edge.idle_pnp /\
    trace w' = [EvDecode [40]; EvWrite "out/output-a photo of a cat.png"].
Proof.
  destruct (sample_loop Edge.idle_pnp [40] (Toy.horse_world 1))
    as [[[self' decoded]|e] w'] eqn:H; [| returns_by_evaluation H].
  destruct (sample_loop_no_timesteps Edge.idle_pnp [40] (Toy.horse_world 1) self' decoded w'
              eq_refl H) as (out & prompt & Hout & Hprompt & Hself & Htrace).
  assert (Eo : config Edge.idle_pnp !! "output_path" = Some (PyStr "out")) by reflexivity.
  assert (Ep : config Edge.idle_pnp !! "prompt" = Some (PyStr "a photo of a cat"))
    by reflexivity.
  rewrite Eo in Hout. rewrite Ep in Hprompt.
  injection Hout as <-. injection Hprompt as <-.
  exists self', decoded, w'. split; [reflexivity |]. split; [exact Hself | exact Htrace].
Defined.

Lemma sample_loop_final_object_witness :
  exists self' decoded w',
    sample_loop (init_pnp Toy.horse_pnp 1 1) [40] (Toy.horse_world 1)
    = (Ok (self', decoded), w') /\
    hook_t (unet_hooks self') = Some 1 /\
    hook_conv (unet_hooks self') = Some [501] /\
    scheduler self' = [501; 1].
Proof.
  destruct (sample_loop (init_pnp Toy.horse_pnp 1 1) [40] (Toy.horse_world 1))
    as [[[self' decoded]|e] w'] eqn:H; [| returns_by_evaluation H].
  destruct (sample_loop_final_object (init_pnp Toy.horse_pnp 1 1) [40] (Toy.horse_world 1)
              self' decoded w' 1 H eq_refl) as (Ht & _ & Hconv & _ & Hsch & _).
  exists self', decoded, w'. split; [reflexivity |].
  split; [exact Ht |]. split; [exact Hconv | exact Hsch].
Defined.

Lemma decode_latent_zero_scaling_witness :
  fst (decode_latent Broken.pnp [40] (Broken.world_of "no seed")) = Raise ZeroDivisionError.
Proof.
  rewrite (decode_latent_zero_scaling (L := Broken.lib) Broken.pnp [40]
             (Broken.world_of "no seed") (or_introl eq_refl)).
  reflexivity.
Defined.

Lemma run_pnp_ratio_not_finite_witness :
  exists e,
    run_pnp Edge.nan_pnp (Toy.horse_world 1) = (Raise e, Toy.horse_world 1) /\
    (e = OverflowError \/ e = ValueError "cannot convert float NaN to integer").
Proof.
  assert (Hn : config Edge.nan_pnp !! "n_timesteps" = Some (PyInt 2)) by reflexivity.
  assert (Hf : config Edge.nan_pnp !! "pnp_f_t" = Some (PyFloat S754_nan)) by reflexivity.
  exact (run_pnp_ratio_not_finite Edge.nan_pnp (Toy.horse_world 1) 2 S754_nan Hn Hf
           (or_introl eq_refl)).
Defined.

Lemma latents_dir_of_stem_witness :
  stem_of "data/horse.png" = "horse" /\
  latents_dir_of "latents" "data/horse.png" = "latents/horse".
Proof.
  destruct (latents_dir_of_stem "latents" "data" "horse" "png")
    as (Hstem & _ & Hdir); try reflexivity; [discriminate |].
  split; [exact Hstem | exact Hdir].
Defined.


Lemma init_pnp_monotone_witness :
  exists l l',
    conv_injection_timesteps (init_pnp Toy.horse_pnp 1 0) = Some l /\
    conv_injection_timesteps (init_pnp Toy.horse_pnp 2 0) = Some l' /\
    l `prefix_of` l' /\ length l = 1%nat.
Proof.
  destruct (init_pnp_monotone Toy.horse_pnp 1 0 2 0) as (l & l' & Hl & Hl' & Hpre & Hlen & _);
    [lia |].
  exists l, l'. repeat split; assumption.
Defined.


Lemma PNP_init_trace_witness :
  trace (snd (PNP_init Toy.horse_cfg (Toy.horse_world 1)))
  = [EvPrint (PStr "Loading SD model");
     EvFromPretrained "UNet2DConditionModel" "/home/heyi/llm/stable-diffusion-xl-base-1.0/";
     EvFromPretrained "StableDiffusionXLPipeline" "/home/heyi/llm/stable-diffusion-xl-base-1.0/";
     EvFromPretrained "DDIMScheduler" "/home/heyi/llm/stable-diffusion-xl-base-1.0/";
     EvPrint (PStr "SD model loaded");
     EvRead "data/horse.png"; EvRead "latents/horse/noisy_latents_501.pt"].
Proof.
  pose proof PNP_init_horse as Hhorse.
  destruct (PNP_init Toy.horse_cfg (Toy.horse_world 1)) as [[self|e] w'] eqn:H;
    [| returns_by_evaluation H].
  destruct (PNP_init_trace Toy.horse_cfg (Toy.horse_world 1) self w' H)
    as (v & ip & lat & t0 & Hv & Hip & Hlat & Ht0 & Htrace).
  assert (Ev : Toy.horse_cfg !! "sd_version" = Some (PyStr "xl-base")) by reflexivity.
  assert (Ei : Toy.horse_cfg !! "image_path" = Some (PyStr "data/horse.png")) by reflexivity.
  assert (El : Toy.horse_cfg !! "latents_path" = Some (PyStr "latents")) by reflexivity.
  rewrite Ev in Hv. rewrite Ei in Hip. rewrite El in Hlat.
  injection Hv as <-. injection Hip as <-. injection Hlat as <-.
  simpl in Hhorse. injection Hhorse as _ Hsch _ _ _ _.
  rewrite Hsch in Ht0. injection Ht0 as <-.
  exact Htrace.
Defined.

Lemma PNP_init_embeds_witness :
  exists self w',
    PNP_init Toy.horse_cfg (Toy.horse_world 1) = (Ok self, w') /\
    text_embeds self = [2; 1] /\ pnp_guidance_embeds self = [2].
Proof.
  destruct (PNP_init Toy.horse_cfg (Toy.horse_world 1)) as [[self|e] w'] eqn:H;
    [| returns_by_evaluation H].
  destruct (PNP_init_embeds Toy.horse_cfg (Toy.horse_world 1) self w' H)
    as (prompt & neg & g0 & pe & ne & pp & np & g1 & pe0 & ne0 & pp0 & np0
        & _ & _ & Henc & Htext & Henc0 & Hidx).
  injection Henc as <- <- _ _ _. injection Henc0 as <- <- _ _ _.
  injection Hidx as Hguidance.
  exists self, w'. split; [reflexivity |]. split; [exact Htext | symmetry; exact Hguidance].
Defined.

Lemma PNP_init_pipeline_witness :
  exists self w' p0 p1,
    PNP_init Toy.horse_cfg (Toy.horse_world 1) = (Ok self, w') /\
    pipe_to p0 "cuda" = Done p1 /\
    enable_xformers_memory_efficient_attention p1 = Done (pipe self).
Proof.
  destruct (PNP_init Toy.horse_cfg (Toy.horse_world 1)) as [[self|e] w'] eqn:H;
    [| returns_by_evaluation H].
  destruct (PNP_init_pipeline Toy.horse_cfg (Toy.horse_world 1) self w' H)
    as (dev & v & p0 & p1 & g1 & g2 & sch0 & n & _ & _ & _ & Hto & Hx & _).
  exists self, w', p0, p1. split; [reflexivity |]. split; assumption.
Defined.

Lemma get_data_image_missing_witness :
  fst (get_data Toy.horse_cfg (PyStr "cuda") (scheduler Toy.horse_pnp) Edge.bare_world)
  = Raise (FileNotFoundError "data/horse.png").
Proof.
  rewrite (get_data_image_missing Toy.horse_cfg (PyStr "cuda") (scheduler Toy.horse_pnp)
             Edge.bare_world "data/horse.png" eq_refl eq_refl).
  reflexivity.
Defined.

Lemma get_data_latents_missing_witness :
  fst (get_data Toy.horse_cfg (PyStr "cuda") Edge.late_scheduler (Toy.horse_world 1))
  = Raise (FileNotFoundError "latents/horse/noisy_latents_999.pt").
Proof.
  rewrite (get_data_latents_missing Toy.horse_cfg (PyStr "cuda") Edge.late_scheduler
             (Toy.horse_world 1) "data/horse.png" Toy.horse_image
             (im_data Toy.horse_image) (image Toy.horse_pnp) "latents" 999
             eq_refl eq_refl eq_refl eq_refl eq_refl eq_refl eq_refl).
  reflexivity.
Defined.

Lemma get_data_no_timesteps_witness :
  get_data Toy.horse_cfg (PyStr "cuda") Edge.idle_scheduler (Toy.horse_world 1)
  = (Raise IndexError, set_trace [EvRead "data/horse.png"] (Toy.horse_world 1)).
Proof.
  exact (get_data_no_timesteps Toy.horse_cfg (PyStr "cuda") Edge.idle_scheduler
           (Toy.horse_world 1) "data/horse.png" Toy.horse_image
           (im_data Toy.horse_image) (image Toy.horse_pnp) (PyStr "latents")
           eq_refl eq_refl eq_refl eq_refl eq_refl eq_refl).
Defined.
